(** * rag-time, Journey 2: the search notebook and the RAG notebook

    A shallow embedding of the two notebooks of
    [2-Build-The-Ultimate-Retrieval-System-For-RAG.ipynb]: the cells are
    programs in a small state-and-exception monad over the notebook's world
    (process environment, the paged-iterator objects returned by
    [search_client.search], standard output, and the log of SDK calls);
    there is no handler, as the notebooks have no [try].
    The hosted services are external: every SDK call is answered by an
    arbitrary oracle [SDK], which may raise. *)

From Stdlib Require Import ZArith NArith.
From stdpp Require Import gmap strings list.

(** ** Python values *)

(** A Python [str] is a sequence of code points. *)
Abbreviation pystr := (list N).

(** An ASCII literal of the source as a [str]. *)
Definition lit (s : string) : pystr :=
  Ascii.N_of_ascii <$> String.list_ascii_of_string s.

(** Floats (search scores, embedding components, the temperature) are only
    carried around by the notebooks, never computed on: a float is NaN or a
    decimal [m * 10^e]. *)
Inductive pyfloat :=
| FNaN
| FDec (m e : Z).

(** The values that occur in search results and on standard output; the
    only lists are embedding vectors. *)
Inductive pyval :=
| PyNone
| PyStr (s : pystr)
| PyInt (n : Z)
| PyFloat (x : pyfloat)
| PyList (l : list pyfloat).

(** A search result is a [dict] with string keys; insertion order matters
    (it decides the column order of the table). *)
Abbreviation pydict := (list (string * pyval)).

Fixpoint dict_get (k : string) (d : pydict) : option pyval :=
  match d with
  | [] => None
  | (k', v) :: d' => if decide (k = k') then Some v else dict_get k d'
  end.

(** ** Exceptions *)

Inductive exn :=
| KeyError (keys : list string)
| TypeError
| IndexError
| NameError
| ExternalError (code : N).

#[global] Instance result_ret : MRet (sum exn) := λ A x, inr x.
#[global] Instance result_bind : MBind (sum exn) := λ A B f m,
  match m with
  | inl e => inl e
  | inr x => f x
  end.

(** [d[k]] *)
Definition dict_getitem (k : string) (d : pydict) : exn + pyval :=
  match dict_get k d with
  | Some v => inr v
  | None => inl (KeyError [k])
  end.

(** ** The part of pandas that [display_results] uses *)

Abbreviation Series := (list pyval).
Abbreviation DataFrame := (list (string * list pyval)).

Definition df_columns (df : DataFrame) : list string := df.*1.

Definition isna (v : pyval) : bool :=
  match v with
  | PyNone | PyFloat FNaN => true
  | _ => false
  end.

(** Column labels of a frame built from a list of flat dicts: the keys in
    the order of their first appearance. *)
Definition add_key (seen : list string) (k : string) : list string :=
  if decide (k ∈ seen) then seen else seen ++ [k].

Definition key_union (rows : list pydict) : list string :=
  foldl add_key [] (rows ≫= λ d, d.*1).

(** A key missing from a row is filled with NaN. *)
Definition cell (k : string) (d : pydict) : pyval :=
  default (PyFloat FNaN) (dict_get k d).

Definition json_normalize (rows : list pydict) : DataFrame :=
  (λ k, (k, cell k <$> rows)) <$> key_union rows.

(** [df.dropna(axis=1, how='all')] *)
Definition dropna_all (df : DataFrame) : DataFrame :=
  filter (λ col : string * list pyval, forallb isna col.2 = false) df.

Fixpoint df_get (name : string) (df : DataFrame) : option Series :=
  match df with
  | [] => None
  | (n, c) :: df' => if decide (name = n) then Some c else df_get name df'
  end.

(** [df[name]] *)
Definition df_getitem (name : string) (df : DataFrame) : exn + Series :=
  match df_get name df with
  | Some c => inr c
  | None => inl (KeyError [name])
  end.

(** [df[name] = s]: an existing column is replaced where it stands, a new
    one is appended. *)
Fixpoint df_setitem (name : string) (s : Series) (df : DataFrame) : DataFrame :=
  match df with
  | [] => [(name, s)]
  | (n, c) :: df' =>
      if decide (name = n) then (n, s) :: df' else (n, c) :: df_setitem name s df'
  end.

(** [df[names]] with a list of labels *)
Definition df_select (names : list string) (df : DataFrame) : exn + DataFrame :=
  match filter (λ n, n ∉ df_columns df) names with
  | [] => inr ((λ n, (n, default [] (df_get n df))) <$> names)
  | missing => inl (KeyError missing)
  end.

Record Styler := {
  data : DataFrame;
  properties : list (string * string);
  hide_index : bool
}.

(** ** display_results *)

(** [lambda c: c[:300] + '...' if len(c) > 300 else c] *)
Definition truncate_chunk (c : pyval) : exn + pyval :=
  match c with
  | PyStr s =>
      inr (if decide (300 < length s) then PyStr (take 300 s ++ lit "...") else c)
  | PyList l =>
      if decide (300 < length l) then inl TypeError else inr c
  | _ => inl TypeError
  end.

Definition first_cols : list string := ["title"; "chunk"; "@search.score"].

(** The frame before the columns are reordered: normalised, all-null columns
    dropped. *)
Definition normalized (rows : list pydict) : DataFrame :=
  dropna_all (json_normalize rows).

(** The truncation step, [df["chunk"] = df["chunk"].apply(...)]. *)
Definition truncation_step (df : DataFrame) : exn + DataFrame :=
  chunk ← df_getitem "chunk" df;
  chunk' ← mapM truncate_chunk chunk;
  mret (df_setitem "chunk" chunk' df).

(** [first_cols + [col for col in df.columns if col not in first_cols]] *)
Definition ordered (columns : list string) : list string :=
  first_cols ++ filter (λ col, col ∉ first_cols) columns.

(** The body of [display_results] once [list(results)] has been taken. *)
Definition display_table (rows : list pydict) : exn + Styler :=
  df ← truncation_step (normalized rows);
  df ← df_select (ordered (df_columns df)) df;
  mret {| data := df;
          properties := [("max-width", "500px"); ("text-align", "left");
                         ("white-space", "normal"); ("word-wrap", "break-word")];
          hide_index := true |}.

(** Two descriptions used to state what the table holds: a frame given
    column by column, and the labels that survive [dropna]. *)
Definition frame_of (names : list string) (col : string → Series) : DataFrame :=
  (λ n, (n, col n)) <$> names.

Definition kept (rows : list pydict) : list string :=
  filter (λ k, forallb isna (cell k <$> rows) = false) (key_union rows).

(** ** SDK objects *)

Inductive VectorQuery :=
| VectorizedQuery (vector : list pyfloat) (k_nearest_neighbors : nat) (fields : pystr)
| VectorizableTextQuery (text : pystr) (k_nearest_neighbors : nat) (fields : pystr).

(** The arguments of [search_client.search]; an argument that is not passed
    has the SDK's default [None] (no vector queries). *)
Record SearchRequest := {
  search_text : option pystr;
  vector_queries : list VectorQuery;
  top : option nat;
  select : option (list string);
  query_type : option pystr;
  semantic_configuration_name : option pystr
}.

Inductive Credential :=
| AzureKeyCredential (key : option pystr)
| DefaultAzureCredential.

Inductive OpenAIAuth :=
| api_key (key : pystr)
| azure_ad_token_provider (credential : Credential) (scope : pystr).

Record AzureOpenAI := {
  auth : OpenAIAuth;
  azure_endpoint : option pystr;
  api_version : pystr
}.

Record SearchClient := {
  endpoint : option pystr;
  index_name : option pystr;
  credential : Credential
}.

Record Message := { role : pystr; content : pystr }.

Record ChatRequest := {
  model : option pystr;
  temperature : pyfloat;
  messages : list Message
}.

(** [SearchItemPaged], the object returned by [search_client.search]: an
    iterator that is its own [__iter__]. [_page_iterator] is [None] until the
    first [__next__], which sends the request; from then on it holds what has
    not been yielded yet. *)
Record SearchItemPaged := {
  paged_client : SearchClient;
  paged_request : SearchRequest;
  _page_iterator : option (list pydict)
}.

Inductive SdkCall :=
| NewAzureKeyCredential (key : option pystr)
| NewDefaultAzureCredential
| GetBearerTokenProvider (credential : Credential) (scope : pystr)
| NewAzureOpenAI (auth : OpenAIAuth) (azure_endpoint : option pystr) (api_version : pystr)
| NewSearchClient (endpoint index_name : option pystr) (credential : Credential)
| SearchPost (client : SearchClient) (request : SearchRequest)
| EmbeddingsCreate (client : AzureOpenAI) (model : option pystr) (input : pystr)
| ChatCompletionsCreate (client : AzureOpenAI) (request : ChatRequest).

(** The hosted services and the SDK's own checks: whether a call raises, and
    what the three network calls answer when they do not. The embeddings
    answer is the list of [data[i].embedding], the chat answer the list of
    [choices[i].message.content]. *)
Record SDK := {
  sdk_raises : SdkCall → option exn;
  search_response : SearchClient → SearchRequest → list pydict;
  embeddings_response : AzureOpenAI → option pystr → pystr → list (list pyfloat);
  chat_response : AzureOpenAI → ChatRequest → list (option pystr)
}.

(** ** The notebook's world and its monad *)

Record World := {
  environ : gmap string pystr;
  heap : gmap nat SearchItemPaged;
  stdout : list (list pyval);
  sdk_log : list SdkCall
}.

(** A cell maps the world to an outcome and the world it leaves behind; what
    ran before an exception stays done. *)
Definition M (A : Type) : Type := World → (exn + A) * World.

#[global] Instance M_ret : MRet M := λ A x w, (inr x, w).
#[global] Instance M_bind : MBind M := λ A B f m w,
  match m w with
  | (inl e, w') => (inl e, w')
  | (inr x, w') => f x w'
  end.

Definition raise {A} (e : exn) : M A := λ w, (inl e, w).

(** A computation that does not touch the world. *)
Definition lift {A} (r : exn + A) : M A := λ w, (r, w).

Definition gets {A} (f : World → A) : M A := λ w, (inr (f w), w).

Definition modify (f : World → World) : M unit := λ w, (inr tt, f w).

Definition set_environ (f : gmap string pystr → gmap string pystr) (w : World) : World :=
  {| environ := f (environ w); heap := heap w; stdout := stdout w; sdk_log := sdk_log w |}.

Definition set_heap (f : gmap nat SearchItemPaged → gmap nat SearchItemPaged) (w : World) : World :=
  {| environ := environ w; heap := f (heap w); stdout := stdout w; sdk_log := sdk_log w |}.

Definition set_stdout (f : list (list pyval) → list (list pyval)) (w : World) : World :=
  {| environ := environ w; heap := heap w; stdout := f (stdout w); sdk_log := sdk_log w |}.

Definition set_sdk_log (f : list SdkCall → list SdkCall) (w : World) : World :=
  {| environ := environ w; heap := heap w; stdout := stdout w; sdk_log := f (sdk_log w) |}.

(** [print(a, b, ...)] records its arguments. *)
Definition print (args : list pyval) : M unit :=
  modify (set_stdout (λ out, out ++ [args])).

(** [load_dotenv(override=True)]: the values of the [.env] file win. *)
Definition load_dotenv (dotenv_file : gmap string pystr) : M unit :=
  modify (set_environ (λ env, dotenv_file ∪ env)).

(** [os.environ[name]] *)
Definition os_environ_getitem (name : string) : M pystr :=
  env ← gets environ;
  match env !! name with
  | Some v => mret v
  | None => raise (KeyError [name])
  end.

(** [os.getenv(name)] *)
Definition os_getenv (name : string) : M (option pystr) :=
  env ← gets environ; mret (env !! name).

(** The iterator object [ref] has been started and has [rest] left to
    yield. *)
Definition holds (w : World) (ref : nat) (rest : list pydict) : Prop :=
  ∃ it, heap w !! ref = Some it ∧ _page_iterator it = Some rest.

(** No SDK call logged so far has raised. *)
Definition clean (sdk : SDK) (w : World) : Prop :=
  Forall (λ call, sdk_raises sdk call = None) (sdk_log w).

(** An outcome in which an SDK call that raised is the outcome itself. *)
Definition faithful (sdk : SDK) {A} (out : (exn + A) * World) : Prop :=
  ∀ call e, call ∈ sdk_log out.2 → sdk_raises sdk call = Some e → out.1 = inl e.

(** A computation that hands on, unchanged, what an SDK call raises. *)
Definition propagates (sdk : SDK) {A} (m : M A) : Prop :=
  ∀ w, clean sdk w → faithful sdk (m w).

(** Truth value of [os.getenv(...)] in an [if]: [None] and the empty string
    are false. *)
Definition truthy (v : option pystr) : bool :=
  match v with
  | Some (_ :: _) => true
  | _ => false
  end.

Section Notebooks.
Context (sdk : SDK).

(** An SDK call is logged, then raises or answers as the oracle says. *)
Definition sdk_call {A} (c : SdkCall) (response : A) : M A :=
  modify (set_sdk_log (λ log, log ++ [c]));;
  match sdk_raises sdk c with
  | Some e => raise e
  | None => mret response
  end.

(** *** Iterating over a [SearchItemPaged] *)

(** [search_client.search(...)] builds the iterator object; nothing is
    sent yet. *)
Definition search (client : SearchClient) (request : SearchRequest) : M nat :=
  h ← gets heap;
  let ref := fresh (dom h) in
  modify (set_heap <[ref := {| paged_client := client;
                               paged_request := request;
                               _page_iterator := None |}]>);;
  mret ref.

Definition set_pending (ref : nat) (rest : list pydict) : M unit :=
  modify (set_heap (alter (λ it, {| paged_client := paged_client it;
                                    paged_request := paged_request it;
                                    _page_iterator := Some rest |}) ref)).

(** What the iterator has still to yield; the first use sends the
    request. An exhausted iterator stays exhausted. *)
Definition pending (ref : nat) : M (list pydict) :=
  h ← gets heap;
  match h !! ref with
  | None => raise NameError
  | Some it =>
      match _page_iterator it with
      | Some rest => mret rest
      | None =>
          rows ← sdk_call (SearchPost (paged_client it) (paged_request it))
                   (search_response sdk (paged_client it) (paged_request it));
          set_pending ref rows;;
          mret rows
      end
  end.

(** [__next__]: [None] stands for [StopIteration]. *)
Definition next (ref : nat) : M (option pydict) :=
  items ← pending ref;
  match items with
  | [] => mret None
  | result :: rest => set_pending ref rest;; mret (Some result)
  end.

(** [for result in ref: s = body(s, result)], where [s] stands for the
    variables the body assigns. Each step takes one item off the iterator
    object before the body runs. The bodies of the notebooks do not touch
    the iterator they loop over, and for such bodies this is the loop
    that calls [next] until it stops ([for_in_next] below). *)
Fixpoint for_items {S} (ref : nat) (items : list pydict)
    (body : S → pydict → M S) (s : S) : M S :=
  match items with
  | [] => mret s
  | result :: rest =>
      set_pending ref rest;;
      s' ← body s result;
      for_items ref rest body s'
  end.

Definition for_in {S} (ref : nat) (body : S → pydict → M S) (s : S) : M S :=
  items ← pending ref;
  for_items ref items body s.

(** [list(ref)] *)
Definition py_list (ref : nat) : M (list pydict) :=
  for_in ref (λ acc result, mret (acc ++ [result])) [].

Definition display_results (results : nat) : M Styler :=
  rows ← py_list results;
  lift (display_table rows).

(** *** The search notebook *)

(** Step 3, "Load Environment Variables". *)
Definition load_environment (dotenv_file : gmap string pystr)
    : M (pystr * pystr * Credential) :=
  load_dotenv dotenv_file;;
  endpoint ← os_environ_getitem "AZURE_SEARCH_SERVICE_ENDPOINT";
  index_name ← os_environ_getitem "AZURE_SEARCH_INDEX";
  key ← os_getenv "AZURE_SEARCH_ADMIN_KEY";
  credential ← sdk_call (NewAzureKeyCredential key) (AzureKeyCredential key);
  mret (endpoint, index_name, credential).

Definition new_search_client (endpoint index_name : option pystr)
    (credential : Credential) : M SearchClient :=
  sdk_call (NewSearchClient endpoint index_name credential)
    {| endpoint := endpoint; index_name := index_name; credential := credential |}.

Definition text_vector_query (text : pystr) : VectorQuery :=
  VectorizableTextQuery text 50 (lit "text_vector").

Definition keyword_request (searchText : pystr) : SearchRequest :=
  {| search_text := Some searchText;
     vector_queries := [];
     top := Some 5;
     select := Some ["title"; "chunk"];
     query_type := None;
     semantic_configuration_name := None |}.

Definition vector_request (searchText : pystr) : SearchRequest :=
  {| search_text := None;
     vector_queries := [text_vector_query searchText];
     top := Some 5;
     select := Some ["title"; "chunk"];
     query_type := None;
     semantic_configuration_name := None |}.

Definition hybrid_request (searchText : pystr) : SearchRequest :=
  {| search_text := Some searchText;
     vector_queries := [text_vector_query searchText];
     top := Some 5;
     select := Some ["title"; "chunk"];
     query_type := None;
     semantic_configuration_name := None |}.

Definition semantic_request (searchText : pystr) : SearchRequest :=
  {| search_text := Some searchText;
     vector_queries := [text_vector_query searchText];
     top := Some 5;
     select := Some ["title"; "chunk"];
     query_type := Some (lit "semantic");
     semantic_configuration_name := Some (lit "sopravector2-semantic-configuration") |}.

(** A search cell: [results = search_client.search(...)] and then
    [display_results(results)]. *)
Definition search_cell (search_client : SearchClient) (request : SearchRequest)
    : M Styler :=
  results ← search search_client request;
  display_results results.

Definition search_notebook (dotenv_file : gmap string pystr) (searchText : pystr)
    : M (list Styler) :=
  '(endpoint, index_name, credential) ← load_environment dotenv_file;
  search_client ← new_search_client (Some endpoint) (Some index_name) credential;
  t1 ← search_cell search_client (keyword_request searchText);
  t2 ← search_cell search_client (vector_request searchText);
  t3 ← search_cell search_client (hybrid_request searchText);
  t4 ← search_cell search_client (semantic_request searchText);
  mret [t1; t2; t3; t4].

(** *** The RAG notebook *)

Definition cognitive_scope : pystr :=
  lit "https://cognitiveservices.azure.com/.default".

(** Step 3, "Setup API Clients". An [if KEY:] takes the first branch when
    the variable is set to a non-empty string. *)
Definition setup_api_clients (dotenv_file : gmap string pystr)
    : M (AzureOpenAI * SearchClient) :=
  load_dotenv dotenv_file;;
  AZURE_OPENAI_ENDPOINT ← os_getenv "AZURE_OPENAI_ENDPOINT";
  AZURE_OPENAI_API_KEY ← os_getenv "AZURE_OPENAI_API_KEY";
  AZURE_OPENAI_CHAT_COMPLETION_DEPLOYED_MODEL_NAME ←
    os_getenv "AZURE_OPENAI_CHAT_COMPLETION_DEPLOYED_MODEL_NAME";
  AZURE_SEARCH_ENDPOINT ← os_getenv "AZURE_SEARCH_SERVICE_ENDPOINT";
  AZURE_SEARCH_INDEX_NAME ← os_getenv "AZURE_SEARCH_INDEX_NAME";
  AZURE_SEARCH_ADMIN_KEY ← os_getenv "AZURE_SEARCH_ADMIN_KEY";
  let new_openai a :=
    sdk_call (NewAzureOpenAI a AZURE_OPENAI_ENDPOINT (lit "2024-10-21"))
      {| auth := a;
         azure_endpoint := AZURE_OPENAI_ENDPOINT;
         api_version := lit "2024-10-21" |} in
  openai_client ←
    (if truthy AZURE_OPENAI_API_KEY then
       new_openai (api_key (default [] AZURE_OPENAI_API_KEY))
     else
       azure_credential ← sdk_call NewDefaultAzureCredential DefaultAzureCredential;
       sdk_call (GetBearerTokenProvider azure_credential cognitive_scope) tt;;
       new_openai (azure_ad_token_provider azure_credential cognitive_scope));
  search_client ←
    (if truthy AZURE_SEARCH_ADMIN_KEY then
       credential ← sdk_call (NewAzureKeyCredential AZURE_SEARCH_ADMIN_KEY)
                      (AzureKeyCredential AZURE_SEARCH_ADMIN_KEY);
       new_search_client AZURE_SEARCH_ENDPOINT AZURE_SEARCH_INDEX_NAME credential
     else
       azure_credential ← sdk_call NewDefaultAzureCredential DefaultAzureCredential;
       new_search_client AZURE_SEARCH_ENDPOINT AZURE_SEARCH_INDEX_NAME azure_credential);
  mret (openai_client, search_client).

Definition get_embedding (openai_client : AzureOpenAI) (text : pystr)
    : M (list pyfloat) :=
  model ← os_getenv "AZURE_OPENAI_EMBEDDING_DEPLOYED_MODEL_NAME";
  data ← sdk_call (EmbeddingsCreate openai_client model text)
           (embeddings_response sdk openai_client model text);
  match data with
  | [] => raise IndexError
  | first :: _ => mret first
  end.

(** Step 4, "Prepare a question". *)
Definition prepare_question (openai_client : AzureOpenAI) (user_question : pystr)
    : M (list pyfloat) :=
  user_question_vector ← get_embedding openai_client user_question;
  print [PyStr (lit "Text embedding")];;
  print [PyList user_question_vector];;
  print [PyInt (Z.of_nat (length user_question_vector))];;
  mret user_question_vector.

Definition rag_request (user_question : pystr) : SearchRequest :=
  {| search_text := None;
     vector_queries := [VectorizableTextQuery user_question 3 (lit "text_vector")];
     top := Some 3;
     select := None;
     query_type := None;
     semantic_configuration_name := None |}.

Definition print_result (result : pydict) : M unit :=
  chunk_id ← lift (dict_getitem "chunk_id" result);
  print [PyStr (lit "Chunk ID:"); chunk_id];;
  title ← lift (dict_getitem "title" result);
  print [PyStr (lit "Title:"); title];;
  chunk ← lift (dict_getitem "chunk" result);
  print [PyStr (lit "Text:"); chunk];;
  print [].

(** Step 5, "Retrieve matching documents": the search and the printing
    loop. *)
Definition retrieve_documents (search_client : SearchClient) (user_question : pystr)
    : M nat :=
  search_results ← search search_client (rag_request user_question);
  for_in search_results (λ _ result, print_result result) tt;;
  mret search_results.

(** [v + s] for a [str] literal [s] *)
Definition add_str (v : pyval) (s : pystr) : exn + pystr :=
  match v with
  | PyStr c => inr (c ++ s)
  | _ => inl TypeError
  end.

Definition newline : N := 10%N.

(** The loop of step 6 that builds [context]. *)
Definition collect_context (search_results : nat) : M pystr :=
  for_in search_results
    (λ context result,
       chunk ← lift (dict_getitem "chunk" result);
       piece ← lift (add_str chunk [newline; newline]);
       mret (context ++ piece))
    [].

(** The f-string [SYSTEM_MESSAGE]. *)
Definition system_message (context : pystr) : pystr :=
  [newline]
  ++ lit "Du er en AI Assistent som har innsikt i Sopra Steria sin personalh"
  ++ [229%N] ++ lit "ndbok vedlagt som context." ++ [newline]
  ++ lit "V" ++ [230%N]
  ++ lit "r kortfattet og detaljert i svarene dine, bruk kun informasjon fra fra personalh"
  ++ [229%N] ++ lit "ndboken." ++ [newline]
  ++ [newline]
  ++ lit "Context:" ++ [newline]
  ++ context ++ [newline].

Definition chat_request (chat_model : option pystr) (context user_question : pystr)
    : ChatRequest :=
  {| model := chat_model;
     temperature := FDec 7 (-1);
     messages := [ {| role := lit "system"; content := system_message context |};
                   {| role := lit "user"; content := user_question |} ] |}.

(** Step 6, "RAG TIME! Generate a Response". *)
Definition generate_response (openai_client : AzureOpenAI) (search_results : nat)
    (user_question : pystr) : M (option pystr) :=
  context ← collect_context search_results;
  chat_model ← os_getenv "AZURE_OPENAI_CHAT_COMPLETION_DEPLOYED_MODEL_NAME";
  let request := chat_request chat_model context user_question in
  choices ← sdk_call (ChatCompletionsCreate openai_client request)
              (chat_response sdk openai_client request);
  answer ← match choices with
           | [] => raise IndexError
           | first :: _ => mret first
           end;
  print [from_option PyStr PyNone answer];;
  mret answer.

Definition rag_notebook (dotenv_file : gmap string pystr) (user_question : pystr)
    : M (option pystr) :=
  '(openai_client, search_client) ← setup_api_clients dotenv_file;
  user_question_vector ← prepare_question openai_client user_question;
  search_results ← retrieve_documents search_client user_question;
  generate_response openai_client search_results user_question.
End Notebooks.

(** The query strings the notebooks ship with. *)
Definition searchText : pystr := lit "Pappapermisjon i sopra steria".
Definition user_question : pystr := lit "Hvor ofte kan jeg bestille ny telefon?".

(** A world before anything has run. *)
Definition initial_world (env : gmap string pystr) : World :=
  {| environ := env; heap := ∅; stdout := []; sdk_log := [] |}.

(** ** Sample data

    A small index and a service that answers from it, used to run the cells
    on concrete inputs. *)

Definition sample_document (chunk_id title chunk : pystr) : pydict :=
  [("chunk_id", PyStr chunk_id); ("parent_id", PyStr (lit "handbook.pdf"));
   ("chunk", PyStr chunk); ("title", PyStr title)].

Definition sample_index : list (pydict * pyfloat) :=
  [ (sample_document (lit "c1") (lit "Permisjon") (replicate 301 97%N), FDec 33 (-3));
    (sample_document (lit "c2") (lit "Telefon") (lit "Ny telefon hvert andre aar."), FDec 32 (-3));
    (sample_document (lit "c3") (lit "Ferie") (replicate 300 98%N), FDec 31 (-3));
    (sample_document (lit "c4") (lit "Reise") (lit "Reiser bestilles i portalen."), FDec 30 (-3));
    (sample_document (lit "c5") (lit "Utstyr") (lit "PC byttes hvert tredje aar."), FDec 29 (-3));
    (sample_document (lit "c6") (lit "Kurs") (lit "Kurs avtales med leder."), FDec 28 (-3)) ].

(** The selected fields of the best [top] documents, each with the
    [@search.*] entries the SDK adds. *)
Definition sample_search (index : list (pydict * pyfloat)) (request : SearchRequest)
    : list pydict :=
  (λ hit : pydict * pyfloat,
     match select request with
     | Some fields => filter (λ kv : string * pyval, kv.1 ∈ fields) hit.1
     | None => hit.1
     end
     ++ [("@search.score", PyFloat hit.2); ("@search.reranker_score", PyNone);
         ("@search.highlights", PyNone); ("@search.captions", PyNone)])
  <$> take (default 50 (top request)) index.

Definition sample_sdk : SDK :=
  {| sdk_raises := λ _, None;
     search_response := λ _ request, sample_search sample_index request;
     embeddings_response := λ _ _ _, [[FDec 12 (-2); FDec (-5) (-1)]];
     chat_response := λ _ _, [Some (lit "Hvert andre aar.")] |}.

(** A service that answers every search with the same rows. *)
Definition fixed_sdk (rows : list pydict) : SDK :=
  {| sdk_raises := λ _, None;
     search_response := λ _ _, rows;
     embeddings_response := λ _ _ _, [[FDec 12 (-2)]];
     chat_response := λ _ _, [Some (lit "ok")] |}.

Definition sample_client : SearchClient :=
  {| endpoint := Some (lit "https://aisearch-fastai-rag.search.windows.net");
     index_name := Some (lit "sopravector2");
     credential := AzureKeyCredential (Some (lit "key")) |}.

(** The world right after [results = search_client.search(...)] in a fresh
    notebook; the iterator is object [0]. *)
Definition searched (request : SearchRequest) : World :=
  (search sample_client request (initial_world ∅)).2.

(** The search requests among the SDK calls of a log. *)
Definition search_requests (log : list SdkCall) : list SearchRequest :=
  log ≫= λ call,
    match call with
    | SearchPost _ request => [request]
    | _ => []
    end.

(** The chat requests among the SDK calls of a log. *)
Definition chat_requests (log : list SdkCall) : list ChatRequest :=
  log ≫= λ call,
    match call with
    | ChatCompletionsCreate _ request => [request]
    | _ => []
    end.

(** The RAG notebook run on the sample index with the question it ships
    with, in an empty environment. *)
Definition sample_rag_run : (exn + option pystr) * World :=
  rag_notebook sample_sdk ∅ user_question (initial_world ∅).

(** The chunks of the three results the sample index gives for a RAG
    retrieval. *)
Definition sample_chunks : list pystr :=
  [replicate 301 97%N; lit "Ny telefon hvert andre aar."; replicate 300 98%N].

(** A [.env] file with an OpenAI key and the sample's empty search key. *)
Definition sample_dotenv : gmap string pystr :=
  {[ "AZURE_OPENAI_API_KEY" := lit "sk-1";
     "AZURE_SEARCH_ADMIN_KEY" := [] ]}.

(** The environment the search notebook needs. *)
Definition sample_search_env : gmap string pystr :=
  {[ "AZURE_SEARCH_SERVICE_ENDPOINT" := lit "https://aisearch-fastai-rag.search.windows.net";
     "AZURE_SEARCH_INDEX" := lit "sopravector2";
     "AZURE_SEARCH_ADMIN_KEY" := lit "key" ]}.

(** A service whose search requests fail with error 503. *)
Definition failing_search_sdk : SDK :=
  {| sdk_raises := λ call,
       match call with
       | SearchPost _ _ => Some (ExternalError 503)
       | _ => None
       end;
     search_response := λ _ _, [];
     embeddings_response := λ _ _ _, [];
     chat_response := λ _ _, [] |}.



(** A keyword search that selects the chunk only. *)
Definition chunk_only_request : SearchRequest :=
  {| search_text := Some searchText;
     vector_queries := [];
     top := Some 5;
     select := Some ["chunk"];
     query_type := None;
     semantic_configuration_name := None |}.

(** Two results without a title, one of them with a null chunk. *)
Definition null_chunk_results : list pydict :=
  [ [("chunk", PyStr (lit "a")); ("@search.score", PyFloat (FDec 1 0))];
    [("chunk", PyNone); ("@search.score", PyFloat (FDec 5 (-1)))] ].

(** ** Descriptions used by the further properties *)

(** The four lines the printing loop of step 5 writes for a result that has
    the three fields it reads. *)
Definition result_lines (result : pydict) : option (list (list pyval)) :=
  chunk_id ← dict_get "chunk_id" result;
  title ← dict_get "title" result;
  chunk ← dict_get "chunk" result;
  Some [ [PyStr (lit "Chunk ID:"); chunk_id];
         [PyStr (lit "Title:"); title];
         [PyStr (lit "Text:"); chunk];
         [] ].

(** A result with a title string, a chunk string and a numeric score. *)
Definition displayable (d : pydict) : Prop :=
  ∃ t s m e, dict_get "title" d = Some (PyStr t)
    ∧ dict_get "chunk" d = Some (PyStr s)
    ∧ dict_get "@search.score" d = Some (PyFloat (FDec m e)).

(** The calls that go over the network. *)
Definition network_calls (log : list SdkCall) : list SdkCall :=
  log ≫= λ call,
    match call with
    | SearchPost _ _ | EmbeddingsCreate _ _ _ | ChatCompletionsCreate _ _ => [call]
    | _ => []
    end.

(** The SDK calls the search notebook contains. *)
Definition search_notebook_call (call : SdkCall) : Prop :=
  match call with
  | NewAzureKeyCredential _ | NewSearchClient _ _ _ | SearchPost _ _ => True
  | _ => False
  end.

(** The constructors of credentials and clients. *)
Definition constructor_call (call : SdkCall) : Prop :=
  match call with
  | SearchPost _ _ | EmbeddingsCreate _ _ _ | ChatCompletionsCreate _ _ => False
  | _ => True
  end.

(** A computation all of whose SDK calls satisfy [P], however it ends. *)
Definition logs_only (P : SdkCall → Prop) {A} (m : M A) : Prop :=
  ∀ w, ∃ calls, sdk_log (m w).2 = sdk_log w ++ calls ∧ Forall P calls.

(** A computation that can only fail with what its last SDK call raised,
    that call satisfying [P]. *)
Definition fails_by_sdk (sdk : SDK) (P : SdkCall → Prop) {A} (m : M A) : Prop :=
  ∀ w e w', m w = (inl e, w') →
    ∃ call, last (sdk_log w') = Some call ∧ sdk_raises sdk call = Some e ∧ P call.

(** An OpenAI client built with a key. *)
Definition sample_openai_client : AzureOpenAI :=
  {| auth := api_key (lit "sk-1");
     azure_endpoint := Some (lit "https://aoai-fastai-rag.openai.azure.com/");
     api_version := lit "2024-10-21" |}.

(** The sample service, except that chat answers have no choices. *)
Definition failing_chat_sdk : SDK :=
  {| sdk_raises := λ _, None;
     search_response := λ _ request, sample_search sample_index request;
     embeddings_response := λ _ _ _, [[FDec 12 (-2); FDec (-5) (-1)]];
     chat_response := λ _ _, [] |}.

(** * Facts about the table model *)

Section Frames.
Implicit Types (df : DataFrame) (rows : list pydict) (k name : string).

Lemma add_key_elem seen k x : x ∈ add_key seen k ↔ x ∈ seen ∨ x = k.
Proof.
  unfold add_key. case_decide; [|set_solver].
  split; [auto|]. intros [?| ->]; done.
Qed.

Lemma add_key_NoDup seen k : NoDup seen → NoDup (add_key seen k).
Proof.
  unfold add_key. intros Hnd. case_decide; [done|].
  apply NoDup_app. repeat split; [done| |apply NoDup_singleton].
  intros x Hx ->%list_elem_of_singleton. done.
Qed.

Lemma foldl_add_key_elem (l seen : list string) x :
  x ∈ foldl add_key seen l ↔ x ∈ seen ∨ x ∈ l.
Proof.
  revert seen. induction l as [|k l IH]; intros seen; simpl.
  - set_solver.
  - rewrite IH, add_key_elem. set_solver.
Qed.

Lemma foldl_add_key_NoDup (l seen : list string) :
  NoDup seen → NoDup (foldl add_key seen l).
Proof.
  revert seen. induction l as [|k l IH]; intros seen Hnd; simpl; [done|].
  by apply IH, add_key_NoDup.
Qed.

Lemma key_union_NoDup rows : NoDup (key_union rows).
Proof. apply foldl_add_key_NoDup, NoDup_nil_2. Qed.

Lemma dict_get_is_Some k (d : pydict) : is_Some (dict_get k d) ↔ k ∈ d.*1.
Proof.
  induction d as [|[k' v] d IH]; simpl.
  - split; [intros [? ?]; done | intros ?%elem_of_nil; done].
  - case_decide as Hk; subst.
    + split; [intros _; apply list_elem_of_here | eauto].
    + rewrite IH, elem_of_cons. naive_solver.
Qed.

(** A column label of the normalised frame is a key of some row. *)
Lemma key_union_elem rows k :
  k ∈ key_union rows ↔ ∃ d, d ∈ rows ∧ is_Some (dict_get k d).
Proof.
  unfold key_union. rewrite foldl_add_key_elem, list_elem_of_bind.
  setoid_rewrite dict_get_is_Some. set_solver.
Qed.

Lemma key_union_nil : key_union [] = [].
Proof. reflexivity. Qed.

Lemma frame_of_columns names col : df_columns (frame_of names col) = names.
Proof.
  unfold df_columns, frame_of. rewrite <- list_fmap_compose.
  induction names as [|n names IH]; [done|].
  rewrite fmap_cons. simpl. by rewrite IH.
Qed.

Lemma df_get_frame_of names col k :
  df_get k (frame_of names col) = if decide (k ∈ names) then Some (col k) else None.
Proof.
  unfold frame_of. induction names as [|n names IH].
  - rewrite decide_False; [done | apply not_elem_of_nil].
  - rewrite fmap_cons. simpl. destruct (decide (k = n)) as [->|Hk].
    + rewrite decide_True; [done | apply list_elem_of_here].
    + rewrite IH. destruct (decide (k ∈ names)) as [Hin|Hin].
      * rewrite decide_True; [done | by apply list_elem_of_further].
      * rewrite decide_False; [done|]. rewrite elem_of_cons. tauto.
Qed.

Lemma df_get_is_Some df k : is_Some (df_get k df) ↔ k ∈ df_columns df.
Proof.
  unfold df_columns. induction df as [|[n c] df IH]; simpl.
  - split; [intros [? ?]; done | intros ?%elem_of_nil; done].
  - case_decide as Hk; subst.
    + split; [intros _; apply list_elem_of_here | eauto].
    + rewrite IH, elem_of_cons. naive_solver.
Qed.

Lemma df_get_setitem name s df k :
  df_get k (df_setitem name s df) = if decide (k = name) then Some s else df_get k df.
Proof.
  induction df as [|[n c] df IH]; simpl.
  - repeat case_decide; congruence.
  - destruct (decide (name = n)) as [->|Hn]; simpl.
    + repeat case_decide; congruence.
    + rewrite IH. repeat case_decide; congruence.
Qed.

Lemma df_columns_setitem name s df :
  name ∈ df_columns df → df_columns (df_setitem name s df) = df_columns df.
Proof.
  unfold df_columns. induction df as [|[n c] df IH]; simpl.
  - intros ?%elem_of_nil; done.
  - intros Hin. case_decide; subst; simpl; [done|].
    f_equal. apply IH. apply elem_of_cons in Hin as [?|?]; done.
Qed.

Lemma normalized_frame rows :
  normalized rows = frame_of (kept rows) (λ k, cell k <$> rows).
Proof.
  unfold normalized, dropna_all, json_normalize, kept, frame_of.
  induction (key_union rows) as [|k ks IH]; [done|].
  rewrite fmap_cons, !filter_cons; simpl.
  case_decide; rewrite IH; done.
Qed.

Lemma kept_NoDup rows : NoDup (kept rows).
Proof. apply NoDup_filter, key_union_NoDup. Qed.


Lemma forallb_isna_false rows k :
  forallb isna (cell k <$> rows) = false ↔ ∃ d, d ∈ rows ∧ isna (cell k d) = false.
Proof.
  induction rows as [|d rows IH]; simpl.
  - split; [done | intros (? & ?%elem_of_nil & _); done].
  - rewrite andb_false_iff, IH. setoid_rewrite elem_of_cons. naive_solver.
Qed.

(** A column is kept exactly when some row has a non-null value for it. *)
Lemma kept_elem rows k :
  k ∈ kept rows ↔ ∃ d, d ∈ rows ∧ isna (cell k d) = false.
Proof.
  unfold kept. rewrite list_elem_of_filter, forallb_isna_false, key_union_elem.
  split; [naive_solver|]. intros (d & Hd & Hna). split; [eauto|].
  exists d. split; [done|]. unfold cell in Hna.
  destruct (dict_get k d); [eauto | done].
Qed.
End Frames.

(** Unfolds the bind and return of the exception monad. *)
Ltac result_simpl :=
  cbv [mbind mret result_bind result_ret] in *; simpl in *.

Section DisplayTable.
Implicit Types (rows : list pydict) (sty : Styler).

Lemma mapM_result_inr {A B} (f : A → exn + B) (l : list A) (k : list B) :
  mapM f l = inr k ↔ Forall2 (λ x y, f x = inr y) l k.
Proof.
  revert k. induction l as [|x l IH]; intros k; simpl.
  - split; [intros [= <-]; constructor | by intros ->%Forall2_nil_inv_l].
  - split.
    + destruct (f x) as [e|y] eqn:Hx; result_simpl; [done|].
      destruct (mapM f l) as [e|k'] eqn:Hl; result_simpl; [done|].
      intros [= <-]. constructor; [done | by apply IH].
    + intros (y & k' & Hy & Hk & ->)%Forall2_cons_inv_l.
      apply IH in Hk. rewrite Hy. result_simpl. rewrite Hk. done.
Qed.

Lemma truncation_step_inv (df df' : DataFrame) :
  truncation_step df = inr df' →
  ∃ col col', df_get "chunk" df = Some col
    ∧ mapM truncate_chunk col = inr col'
    ∧ df' = df_setitem "chunk" col' df.
Proof.
  unfold truncation_step, df_getitem.
  destruct (df_get "chunk" df) as [col|]; result_simpl; [|done].
  destruct (mapM truncate_chunk col) as [e|col'] eqn:Hm; result_simpl; [done|].
  intros [= <-]. eauto.
Qed.

(** The truncation step leaves the labels and every other column as they
    were. *)
Lemma truncation_step_frame (df df' : DataFrame) :
  truncation_step df = inr df' →
  df_columns df' = df_columns df
  ∧ ∀ name, name ≠ "chunk" → df_get name df' = df_get name df.
Proof.
  intros (col & col' & Hget & _ & ->)%truncation_step_inv. split.
  - apply df_columns_setitem, df_get_is_Some. eauto.
  - intros name Hne. rewrite df_get_setitem. by rewrite decide_False.
Qed.

Lemma df_select_inv names (df df' : DataFrame) :
  df_select names df = inr df' →
  Forall (λ n, n ∈ df_columns df) names
  ∧ df' = frame_of names (λ n, default [] (df_get n df)).
Proof.
  unfold df_select.
  destruct (filter _ names) as [|m ms] eqn:Hf; [|done].
  intros [= <-]. split; [|done].
  apply Forall_forall. intros n Hn.
  destruct (decide (n ∈ df_columns df)) as [|Hnot]; [done|].
  assert (n ∈ filter (λ n, n ∉ df_columns df) names) as Hin
    by (apply list_elem_of_filter; done).
  rewrite Hf in Hin. by apply elem_of_nil in Hin.
Qed.

Lemma df_select_all names (df : DataFrame) :
  Forall (λ n, n ∈ df_columns df) names →
  df_select names df = inr (frame_of names (λ n, default [] (df_get n df))).
Proof.
  intros Hall. unfold df_select.
  destruct (filter _ names) as [|m ms] eqn:Hf; [done|].
  assert (m ∈ filter (λ n, n ∉ df_columns df) names) as Hin
    by (rewrite Hf; apply list_elem_of_here).
  apply list_elem_of_filter in Hin as [Hnot Hin].
  rewrite Forall_forall in Hall. by destruct Hnot; apply Hall.
Qed.

Lemma df_select_missing names (df : DataFrame) n :
  n ∈ names → n ∉ df_columns df →
  ∃ missing, df_select names df = inl (KeyError missing) ∧ n ∈ missing.
Proof.
  intros Hin Hnot. unfold df_select.
  assert (n ∈ filter (λ n, n ∉ df_columns df) names) as Hf
    by (apply list_elem_of_filter; done).
  destruct (filter _ names) as [|m ms]; [by apply elem_of_nil in Hf|]. eauto.
Qed.

Lemma ordered_elem names n : n ∈ ordered names ↔ n ∈ first_cols ∨ n ∈ names.
Proof.
  unfold ordered. rewrite elem_of_app, list_elem_of_filter.
  destruct (decide (n ∈ first_cols)); tauto.
Qed.

(** What a successful [display_table] has computed. *)
Lemma display_table_inv rows sty :
  display_table rows = inr sty →
  ∃ col', mapM truncate_chunk (cell "chunk" <$> rows) = inr col'
    ∧ "chunk" ∈ kept rows
    ∧ Forall (λ n, n ∈ kept rows) first_cols
    ∧ df_columns (data sty) = ordered (kept rows)
    ∧ ∀ n, df_get n (data sty) =
           if decide (n ∈ kept rows)
           then Some (if decide (n = "chunk") then col' else cell n <$> rows)
           else None.
Proof.
  unfold display_table. rewrite normalized_frame.
  destruct (truncation_step _) as [e|df] eqn:Ht; result_simpl; [done|].
  destruct (df_select _ df) as [e|df'] eqn:Hs; result_simpl; [done|].
  intros [= <-]; simpl.
  pose proof (truncation_step_frame _ _ Ht) as [Hcols Hother].
  apply truncation_step_inv in Ht as (col & col' & Hget & Hm & Hdf).
  rewrite frame_of_columns in Hcols.
  rewrite df_get_frame_of in Hget.
  destruct (decide ("chunk" ∈ kept rows)) as [Hchunk|]; [|done].
  injection Hget as <-.
  apply df_select_inv in Hs as [Hall ->].
  rewrite Hcols in Hall |- *. rewrite Forall_forall in Hall.
  exists col'. split_and!; [done|done| | |].
  - apply Forall_forall. intros n Hn.
    apply Hall, ordered_elem. by left.
  - apply frame_of_columns.
  - intros n. rewrite df_get_frame_of, Hdf, df_get_setitem.
    destruct (decide (n ∈ kept rows)) as [Hn|Hn].
    + rewrite decide_True by (apply ordered_elem; by right).
      destruct (decide (n = "chunk")); [done|].
      rewrite df_get_frame_of. by rewrite decide_True.
    + rewrite decide_False; [done|].
      intros Hin. by apply Hn, Hall.
Qed.

(** When [display_table] goes through. *)
Lemma display_table_succeeds rows :
  Forall (λ n, n ∈ kept rows) first_cols →
  (∃ col', mapM truncate_chunk (cell "chunk" <$> rows) = inr col') →
  ∃ sty, display_table rows = inr sty.
Proof.
  intros Hall [col' Hm]. unfold display_table, truncation_step, df_getitem.
  assert ("chunk" ∈ kept rows) as Hchunk.
  { rewrite Forall_forall in Hall. apply Hall. unfold first_cols. set_solver. }
  rewrite normalized_frame, df_get_frame_of, decide_True by done. simpl.
  rewrite Hm. simpl.
  rewrite df_columns_setitem by (by rewrite frame_of_columns).
  rewrite frame_of_columns.
  rewrite df_select_all; [simpl; eauto|].
  apply Forall_forall. intros n Hn.
  rewrite df_columns_setitem by (by rewrite frame_of_columns).
  rewrite frame_of_columns. apply ordered_elem in Hn as [Hn|Hn]; [|done].
  rewrite Forall_forall in Hall. by apply Hall.
Qed.
End DisplayTable.

(** * Facts about the cells *)

(** Unfolds one layer of the notebook monad. *)
Ltac m_simpl :=
  cbv [mbind mret M_bind M_ret raise lift gets modify]; simpl.

Section Iterators.
Context (sdk : SDK).
Implicit Types (w : World) (ref : nat) (items rows : list pydict).

Lemma bind_run {A B} (m : M A) (f : A → M B) w :
  (m ≫= f) w = match m w with
               | (inl e, w') => (inl e, w')
               | (inr x, w') => f x w'
               end.
Proof. reflexivity. Qed.

Lemma bind_inr_inv {A B} (m : M A) (f : A → M B) w b w' :
  (m ≫= f) w = (inr b, w') →
  ∃ a w1, m w = (inr a, w1) ∧ f a w1 = (inr b, w').
Proof. rewrite bind_run. destruct (m w) as [[e|a] w1]; [done | eauto]. Qed.

Lemma set_pending_run ref rest w :
  set_pending ref rest w =
    (inr tt, set_heap (alter (λ it, {| paged_client := paged_client it;
                                       paged_request := paged_request it;
                                       _page_iterator := Some rest |}) ref) w).
Proof. reflexivity. Qed.

Lemma set_pending_holds ref rest w it :
  heap w !! ref = Some it →
  holds (set_pending ref rest w).2 ref rest.
Proof.
  intros Hit. rewrite set_pending_run. unfold holds. simpl.
  eexists. rewrite lookup_alter_eq, Hit. simpl. split; done.
Qed.

Lemma pending_started ref w rest :
  holds w ref rest → pending sdk ref w = (inr rest, w).
Proof.
  intros (it & Hit & Hrest). unfold pending. m_simpl. by rewrite Hit, Hrest.
Qed.

(** What [pending] yields, and that the iterator then holds it. *)
Lemma pending_inr ref w rows w' :
  pending sdk ref w = (inr rows, w') →
  ∃ it, heap w !! ref = Some it
    ∧ heap w' !! ref = Some {| paged_client := paged_client it;
                               paged_request := paged_request it;
                               _page_iterator := Some rows |}
    ∧ stdout w' = stdout w
    ∧ environ w' = environ w
    ∧ match _page_iterator it with
      | Some rest => rows = rest ∧ w' = w
      | None =>
          rows = search_response sdk (paged_client it) (paged_request it)
          ∧ sdk_log w' = sdk_log w ++ [SearchPost (paged_client it) (paged_request it)]
      end.
Proof.
  unfold pending, sdk_call. m_simpl.
  destruct (heap w !! ref) as [it|] eqn:Hit; [|done].
  destruct (_page_iterator it) as [rest|] eqn:Hrest.
  - intros [= <- <-]. exists it. rewrite Hit, Hrest. split_and!; try done.
    destruct it; simpl in *. by subst.
  - destruct (sdk_raises sdk _); [done|]. intros [= <- <-]. simpl.
    exists it. rewrite lookup_alter_eq, Hit, Hrest. done.
Qed.

Section Loop.
Context {S : Type} (body : S → pydict → M S).

Lemma for_in_run ref s w :
  for_in sdk ref body s w =
    match pending sdk ref w with
    | (inl e, w') => (inl e, w')
    | (inr items, w') => for_items ref items body s w'
    end.
Proof. reflexivity. Qed.

Lemma for_items_cons ref result rest s w :
  for_items ref (result :: rest) body s w =
    match body s result (set_pending ref rest w).2 with
    | (inl e, w') => (inl e, w')
    | (inr s', w') => for_items ref rest body s' w'
    end.
Proof. reflexivity. Qed.

(** A body that leaves the iterators alone, as those of the notebooks
    do. *)
Hypothesis body_heap : ∀ s result w, heap (body s result w).2 = heap w.

(** A loop that runs to its end leaves its iterator exhausted. *)
Lemma for_items_exhausts ref items s w s' w' it :
  heap w !! ref = Some it → _page_iterator it = Some items →
  for_items ref items body s w = (inr s', w') →
  heap w' !! ref = Some {| paged_client := paged_client it;
                           paged_request := paged_request it;
                           _page_iterator := Some [] |}.
Proof.
  revert s w it. induction items as [|result rest IH]; intros s w it Hit Hrest.
  - simpl. m_simpl. intros [= <- <-]. rewrite Hit. destruct it; simpl in *.
    by subst.
  - rewrite for_items_cons.
    destruct (body s result _) as [[e|s1] w1] eqn:Hbody; [done|].
    intros Hloop.
    pose proof (body_heap s result (set_pending ref rest w).2) as Hh.
    rewrite Hbody in Hh. simpl in Hh.
    eapply (IH _ _ {| paged_client := paged_client it;
                      paged_request := paged_request it;
                      _page_iterator := Some rest |}) in Hloop; [done| |done].
    rewrite Hh, lookup_alter_eq, Hit. done.
Qed.

Lemma for_in_exhausts ref s w s' w' :
  for_in sdk ref body s w = (inr s', w') →
  ∃ it, heap w !! ref = Some it
    ∧ heap w' !! ref = Some {| paged_client := paged_client it;
                               paged_request := paged_request it;
                               _page_iterator := Some [] |}.
Proof.
  rewrite for_in_run.
  destruct (pending sdk ref w) as [[e|items] w1] eqn:Hp; [done|].
  apply pending_inr in Hp as (it & Hit & Hit1 & _).
  intros Hloop. exists it. split; [done|].
  by rewrite (for_items_exhausts _ _ _ _ _ _ _ Hit1 eq_refl Hloop).
Qed.
(** The loop calls [next] until [StopIteration]. *)
Lemma for_in_next ref s w :
  for_in sdk ref body s w =
    match next sdk ref w with
    | (inl e, w') => (inl e, w')
    | (inr None, w') => (inr s, w')
    | (inr (Some result), w') =>
        match body s result w' with
        | (inl e, w'') => (inl e, w'')
        | (inr s', w'') => for_in sdk ref body s' w''
        end
    end.
Proof.
  rewrite for_in_run. unfold next. rewrite bind_run.
  destruct (pending sdk ref w) as [[e|items] w1] eqn:Hp; [done|].
  destruct items as [|result rest]; [done|].
  rewrite for_items_cons.
  change ((set_pending ref rest;; mret (Some result)) w1)
    with (inr (A:=exn) (Some result), (set_pending ref rest w1).2).
  cbv beta iota.
  destruct (body s result _) as [[e|s'] w2] eqn:Hbody; [done|].
  apply pending_inr in Hp as (it & _ & Hit1 & _).
  pose proof (set_pending_holds ref rest w1 _ Hit1) as Hholds.
  pose proof (body_heap s result (set_pending ref rest w1).2) as Hh.
  rewrite Hbody in Hh. simpl in Hh.
  assert (holds w2 ref rest) as Hholds2 by (unfold holds; by rewrite Hh).
  by rewrite for_in_run, (pending_started ref w2 rest Hholds2).
Qed.
End Loop.

(** [list(ref)] is what the iterator had left. *)
Lemma for_items_collect ref items acc w :
  (for_items ref items (λ acc result, mret (acc ++ [result])) acc w).1
    = inr (acc ++ items).
Proof.
  revert acc w. induction items as [|result rest IH]; intros acc w.
  - simpl. m_simpl. by rewrite app_nil_r.
  - rewrite for_items_cons. m_simpl. rewrite IH. by rewrite <- app_assoc.
Qed.

Lemma py_list_inr ref w rows w' :
  py_list sdk ref w = (inr rows, w') →
  ∃ w1, pending sdk ref w = (inr rows, w1).
Proof.
  unfold py_list. rewrite for_in_run.
  destruct (pending sdk ref w) as [[e|items] w1] eqn:Hp; [done|].
  intros Hrun. exists w1. pose proof (for_items_collect ref items [] w1) as Hc.
  rewrite Hrun in Hc. simpl in Hc. by injection Hc as ->.
Qed.

Lemma display_results_run results w :
  display_results sdk results w =
    match py_list sdk results w with
    | (inl e, w') => (inl e, w')
    | (inr rows, w') => (display_table rows, w')
    end.
Proof. reflexivity. Qed.
End Iterators.

Section DisplayResults.
Context (sdk : SDK).
Implicit Types (w : World) (rows : list pydict) (sty : Styler).

Lemma display_results_inr results w sty w' :
  display_results sdk results w = (inr sty, w') →
  ∃ rows, py_list sdk results w = (inr rows, w') ∧ display_table rows = inr sty.
Proof.
  rewrite display_results_run.
  destruct (py_list sdk results w) as [[e|rows] w1]; [done|].
  intros [= Ht <-]. eauto.
Qed.

Lemma display_results_of results w rows w' :
  py_list sdk results w = (inr rows, w') →
  display_results sdk results w = (display_table rows, w').
Proof. intros Hl. by rewrite display_results_run, Hl. Qed.

Lemma truncate_chunk_str (s : pystr) c :
  truncate_chunk (PyStr s) = inr c →
  (c = PyStr (take 300 s ++ lit "...") ↔ 300 < length s)
  ∧ (length s ≤ 300 → c = PyStr s).
Proof.
  simpl. intros [= <-]. case_decide as Hlen.
  - split; [done | lia].
  - split; [|done]. split; [|done].
    intros [= Heq]. apply (f_equal length) in Heq.
    rewrite length_app, length_take in Heq.
    change (length (lit "...")) with 3 in Heq. lia.
Qed.

Lemma kept_lacking rows f :
  Forall (λ d, dict_get f d = None) rows → f ∉ kept rows.
Proof.
  intros Hall (d & Hd & Hna)%kept_elem.
  rewrite Forall_forall in Hall. unfold cell in Hna. by rewrite (Hall d Hd) in Hna.
Qed.

Lemma display_table_no_chunk rows :
  "chunk" ∉ kept rows → display_table rows = inl (KeyError ["chunk"]).
Proof.
  intros Hnot. unfold display_table, truncation_step, df_getitem.
  rewrite normalized_frame, df_get_frame_of, decide_False by done. done.
Qed.

Lemma truncate_all_str rows :
  Forall (λ d, ∃ s, dict_get "chunk" d = Some (PyStr s)) rows →
  ∃ col', mapM truncate_chunk (cell "chunk" <$> rows) = inr col'.
Proof.
  induction 1 as [|d rows (s & Hs) _ (col' & IH)]; [by exists []|].
  rewrite fmap_cons. unfold cell at 1. rewrite Hs. simpl.
  rewrite IH. result_simpl. eauto.
Qed.

(** With string chunks, a column of [first_cols] that [dropna] did not
    keep is reported by a [KeyError]. *)
Lemma display_table_missing rows f :
  Forall (λ d, ∃ s, dict_get "chunk" d = Some (PyStr s)) rows →
  f ∈ first_cols → f ∉ kept rows →
  ∃ missing, display_table rows = inl (KeyError missing).
Proof.
  intros Hstr Hf Hnot.
  destruct (decide ("chunk" ∈ kept rows)) as [Hchunk|Hchunk].
  - destruct (truncate_all_str rows Hstr) as [col' Hm].
    unfold display_table, truncation_step, df_getitem.
    rewrite normalized_frame, df_get_frame_of, decide_True by done.
    result_simpl. rewrite Hm.
    rewrite df_columns_setitem by (by rewrite frame_of_columns).
    rewrite frame_of_columns.
    destruct (df_select_missing (ordered (kept rows))
                (df_setitem "chunk" col' (frame_of (kept rows) (λ k, cell k <$> rows))) f)
      as (missing & Hsel & Hin).
    + apply ordered_elem. by left.
    + rewrite df_columns_setitem by (by rewrite frame_of_columns).
      by rewrite frame_of_columns.
    + rewrite Hsel. eauto.
  - exists ["chunk"]. by apply display_table_no_chunk.
Qed.
End DisplayResults.

Section DisplayClaims.
Context (sdk : SDK).
Implicit Types (w : World) (rows : list pydict) (sty : Styler).

(** C3. Whenever [display_results] returns a table, the chunk string [s]
    of every result is shown as its first 300 characters followed by
    ["..."] if and only if [s] is longer than 300 characters; a chunk of
    at most 300 characters is shown unchanged; and the truncation step
    changes no column other than ["chunk"], so that every other column of
    the table holds the values it had before. *)
Theorem display_results_truncates_chunk results w sty w' :
  display_results sdk results w = (inr sty, w') →
  ∃ rows, py_list sdk results w = (inr rows, w')
    ∧ (∀ i d s, rows !! i = Some d → dict_get "chunk" d = Some (PyStr s) →
         ∃ col c, df_get "chunk" (data sty) = Some col ∧ col !! i = Some c
           ∧ (c = PyStr (take 300 s ++ lit "...") ↔ 300 < length s)
           ∧ (length s ≤ 300 → c = PyStr s))
    ∧ (∀ name, name ≠ "chunk" →
         df_get name (data sty) = df_get name (normalized rows))
    ∧ (∀ df df' : DataFrame, truncation_step df = inr df' →
         df_columns df' = df_columns df
         ∧ ∀ name, name ≠ "chunk" → df_get name df' = df_get name df).
Proof.
  intros (rows & Hlist & Htable)%display_results_inr.
  exists rows. split; [done|].
  apply display_table_inv in Htable as (col' & Hm & Hchunk & _ & _ & Hget).
  split_and!.
  - intros i d s Hi Hs. apply mapM_result_inr in Hm.
    assert ((cell "chunk" <$> rows) !! i = Some (PyStr s)) as Hcell.
    { rewrite list_lookup_fmap, Hi. simpl. unfold cell. by rewrite Hs. }
    destruct (Forall2_lookup_l _ _ _ _ _ Hm Hcell) as (c & Hc & Htr).
    exists col', c. rewrite Hget, !decide_True by done.
    split_and!; [done|done|..]; by apply truncate_chunk_str.
  - intros name Hne. rewrite Hget, normalized_frame, df_get_frame_of.
    case_decide; [by rewrite decide_False | done].
  - apply truncation_step_frame.
Qed.

(** C9, as amended. After [list(results)] has given [rows]:
    [display_results] raises [KeyError] when there are no rows or no row
    has a ["chunk"]; when no row has one of ["title"], ["chunk"],
    ["@search.score"] it raises, and what it raises is a [KeyError]
    provided every chunk is a string (otherwise the truncation step may
    raise [TypeError] first); and it returns a table only for a non-empty
    result set in which each of the three fields occurs. *)
Theorem display_results_partial results w rows w' :
  py_list sdk results w = (inr rows, w') →
  (rows = [] → display_results sdk results w = (inl (KeyError ["chunk"]), w'))
  ∧ (Forall (λ d, dict_get "chunk" d = None) rows →
       display_results sdk results w = (inl (KeyError ["chunk"]), w'))
  ∧ (∀ f, f ∈ first_cols → Forall (λ d, dict_get f d = None) rows →
       (∃ e, display_results sdk results w = (inl e, w'))
       ∧ (Forall (λ d, ∃ s, dict_get "chunk" d = Some (PyStr s)) rows →
            ∃ missing, display_results sdk results w = (inl (KeyError missing), w')))
  ∧ (∀ sty w2, display_results sdk results w = (inr sty, w2) →
       rows ≠ [] ∧ ∀ f, f ∈ first_cols → ∃ d, d ∈ rows ∧ is_Some (dict_get f d)).
Proof.
  intros Hlist. rewrite (display_results_of _ _ _ _ _ Hlist). split_and!.
  - intros ->. done.
  - intros Hall. by rewrite display_table_no_chunk by by apply kept_lacking.
  - intros f Hf Hall. pose proof (kept_lacking rows f Hall) as Hnot. split.
    + destruct (display_table rows) as [e|sty] eqn:Ht; [eauto|].
      apply display_table_inv in Ht as (_ & _ & _ & Hkept & _).
      rewrite Forall_forall in Hkept. by destruct Hnot; apply Hkept.
    + intros Hstr.
      destruct (display_table_missing rows f Hstr Hf Hnot) as [missing ->]. eauto.
  - intros sty w2 [= Ht <-].
    apply display_table_inv in Ht as (_ & _ & Hchunk & Hkept & _).
    split.
    + intros ->. by apply elem_of_nil in Hchunk.
    + intros f Hf. rewrite Forall_forall in Hkept.
      apply Hkept, kept_elem in Hf as (d & Hd & Hna).
      exists d. split; [done|]. unfold cell in Hna.
      destruct (dict_get f d); [eauto | done].
Qed.

End DisplayClaims.

(** C3 on the sample index: the hybrid search returns five results, the
    first with a chunk of 301 characters. *)
Lemma display_results_truncates_chunk_witness :
  ∃ sty w', display_results sample_sdk 0 (searched (hybrid_request searchText))
            = (inr sty, w')
    ∧ ∃ rows, py_list sample_sdk 0 (searched (hybrid_request searchText))
              = (inr rows, w')
      ∧ (∀ i d s, rows !! i = Some d → dict_get "chunk" d = Some (PyStr s) →
           ∃ col c, df_get "chunk" (data sty) = Some col ∧ col !! i = Some c
             ∧ (c = PyStr (take 300 s ++ lit "...") ↔ 300 < length s)
             ∧ (length s ≤ 300 → c = PyStr s))
      ∧ (∀ name, name ≠ "chunk" →
           df_get name (data sty) = df_get name (normalized rows))
      ∧ (∀ df df' : DataFrame, truncation_step df = inr df' →
           df_columns df' = df_columns df
           ∧ ∀ name, name ≠ "chunk" → df_get name df' = df_get name df).
Proof.
  eexists _, _. split; [vm_compute; reflexivity|].
  apply (display_results_truncates_chunk sample_sdk 0
           (searched (hybrid_request searchText))).
  vm_compute. reflexivity.
Defined.

(** C9 on the sample index with [select=["chunk"]]: the results have no
    title. *)
Lemma display_results_partial_witness :
  ∃ rows w', py_list sample_sdk 0 (searched chunk_only_request) = (inr rows, w')
    ∧ Forall (λ d, dict_get "title" d = None) rows
    ∧ Forall (λ d, ∃ s, dict_get "chunk" d = Some (PyStr s)) rows
    ∧ ∃ missing, display_results sample_sdk 0 (searched chunk_only_request)
                 = (inl (KeyError missing), w').
Proof.
  assert (∃ rows w', py_list sample_sdk 0 (searched chunk_only_request) = (inr rows, w')
            ∧ Forall (λ d, dict_get "title" d = None) rows
            ∧ Forall (λ d, ∃ s, dict_get "chunk" d = Some (PyStr s)) rows)
    as (rows & w' & Hlist & Htitle & Hchunk).
  { eexists _, _. split; [vm_compute; reflexivity|].
    split; repeat constructor; eexists; vm_compute; reflexivity. }
  exists rows, w'. split_and!; [done..|].
  destruct (display_results_partial sample_sdk 0 (searched chunk_only_request) rows w' Hlist)
    as (_ & _ & Hlack & _).
  apply (Hlack "title"); [|done|done]. unfold first_cols. apply list_elem_of_here.
Defined.


(** The claim C9 as stated fails: these results have no title, and
    [display_results] raises [TypeError], not [KeyError]. *)
Lemma display_results_null_chunk_TypeError :
  (py_list (fixed_sdk null_chunk_results) 0 (searched (keyword_request searchText))).1
    = inr null_chunk_results
  ∧ Forall (λ d, dict_get "title" d = None) null_chunk_results
  ∧ (display_results (fixed_sdk null_chunk_results) 0
       (searched (keyword_request searchText))).1 = inl TypeError
  ∧ ¬ ∃ keys, (display_results (fixed_sdk null_chunk_results) 0
                 (searched (keyword_request searchText))).1 = inl (KeyError keys).
Proof.
  split_and!; [vm_compute; reflexivity | by repeat constructor
              | vm_compute; reflexivity |].
  intros [keys Hk]. vm_compute in Hk. discriminate.
Qed.

Section Searches.
Context (sdk : SDK).
Implicit Types (w : World) (client : SearchClient) (request : SearchRequest).

Lemma search_run client request w :
  search client request w =
    (inr (fresh (dom (heap w))),
     set_heap <[fresh (dom (heap w)) :=
                  {| paged_client := client; paged_request := request;
                     _page_iterator := None |}]> w).
Proof. reflexivity. Qed.

(** The first use of an iterator sends its request and yields the
    answer. *)
Lemma pending_unstarted ref w it :
  heap w !! ref = Some it → _page_iterator it = None →
  let call := SearchPost (paged_client it) (paged_request it) in
  let rows := search_response sdk (paged_client it) (paged_request it) in
  pending sdk ref w =
    match sdk_raises sdk call with
    | Some e => (inl e, set_sdk_log (λ log, log ++ [call]) w)
    | None => (inr rows, (set_pending ref rows (set_sdk_log (λ log, log ++ [call]) w)).2)
    end.
Proof.
  intros Hit Hnone call rows. unfold pending, sdk_call. m_simpl.
  rewrite Hit, Hnone. fold call. destruct (sdk_raises sdk call); reflexivity.
Qed.

Lemma search_unstarted client request w :
  heap (search client request w).2 !! fresh (dom (heap w))
    = Some {| paged_client := client; paged_request := request;
              _page_iterator := None |}.
Proof. rewrite search_run. simpl. apply lookup_insert_eq. Qed.

(** A part of the world that neither the iterator steps nor the body
    change is left as it was by the loop. *)
Lemma for_items_frame {S X} (part : World → X) ref items
    (body : S → pydict → M S) s w :
  (∀ rest w, part (set_pending ref rest w).2 = part w) →
  (∀ s result w, part (body s result w).2 = part w) →
  part (for_items ref items body s w).2 = part w.
Proof.
  intros Hstep Hbody. revert s w. induction items as [|result rest IH]; intros s w.
  - reflexivity.
  - rewrite for_items_cons.
    pose proof (Hbody s result (set_pending ref rest w).2) as Hb.
    rewrite Hstep in Hb.
    destruct (body s result _) as [[e|s1] w1]; [exact Hb|].
    rewrite IH. exact Hb.
Qed.

Lemma for_items_log {S} ref items (body : S → pydict → M S) s w :
  (∀ s result w, sdk_log (body s result w).2 = sdk_log w) →
  sdk_log (for_items ref items body s w).2 = sdk_log w.
Proof. by apply for_items_frame. Qed.

Lemma for_items_stdout_length {S} ref items (body : S → pydict → M S) n s w s' w' :
  (∀ s result w s1 w1, body s result w = (inr s1, w1) →
     length (stdout w1) = length (stdout w) + n) →
  for_items ref items body s w = (inr s', w') →
  length (stdout w') = length (stdout w) + n * length items.
Proof.
  intros Hbody. revert s w. induction items as [|result rest IH]; intros s w.
  - simpl. m_simpl. intros [= <- <-]. lia.
  - rewrite for_items_cons.
    destruct (body s result _) as [[e|s1] w1] eqn:Hb; [done|].
    intros Hrest. apply IH in Hrest. apply Hbody in Hb. simpl in *. lia.
Qed.

(** A search cell sends exactly one request, the one it was given, and
    displays the answer to it. *)
Lemma search_cell_run client request w :
  sdk_log (search_cell sdk client request w).2
    = sdk_log w ++ [SearchPost client request]
  ∧ ∀ sty w', search_cell sdk client request w = (inr sty, w') →
      display_table (search_response sdk client request) = inr sty.
Proof.
  unfold search_cell. rewrite bind_run, search_run.
  set (ref := fresh (dom (heap w))). set (w1 := set_heap _ w).
  assert (heap w1 !! ref = Some {| paged_client := client; paged_request := request;
                                   _page_iterator := None |}) as Hit
    by apply lookup_insert_eq.
  rewrite display_results_run. unfold py_list. rewrite for_in_run.
  rewrite (pending_unstarted ref w1 _ Hit eq_refl). simpl.
  destruct (sdk_raises sdk _) as [e|]; [done|].
  match goal with
  | |- context [for_items ?r ?i ?b ?s ?w0] =>
      pose proof (for_items_collect r i s w0) as Hc;
      pose proof (for_items_log r i b s w0 (λ _ _ _, eq_refl)) as Hl;
      destruct (for_items r i b s w0) as [[e|rows] w2]
  end; simpl in *; [done|].
  injection Hc as ->. split; [done|]. by intros sty w' [= -> _].
Qed.

End Searches.

Section Rag.
Context (sdk : SDK).
Implicit Types (w : World) (client : SearchClient) (openai_client : AzureOpenAI).

Lemma print_result_frame result w :
  heap (print_result result w).2 = heap w
  ∧ sdk_log (print_result result w).2 = sdk_log w
  ∧ environ (print_result result w).2 = environ w.
Proof.
  unfold print_result, print, dict_getitem. m_simpl.
  repeat (case_match; simpl; try done).
Qed.

Lemma print_result_lines result w u w' :
  print_result result w = (inr u, w') →
  length (stdout w') = length (stdout w) + 4.
Proof.
  unfold print_result, print, dict_getitem. m_simpl.
  repeat (case_match; simpl; try done).
  intros [= _ <-]. simpl. rewrite !length_app. simpl. lia.
Qed.

(** Step 5 sends the request of [rag_request], prints four lines for each
    result of the answer, and leaves the iterator exhausted. *)
Lemma retrieve_documents_inr client question w ref w' :
  retrieve_documents sdk client question w = (inr ref, w') →
  heap w' !! ref = Some {| paged_client := client;
                           paged_request := rag_request question;
                           _page_iterator := Some [] |}
  ∧ sdk_log w' = sdk_log w ++ [SearchPost client (rag_request question)]
  ∧ environ w' = environ w
  ∧ length (stdout w')
    = length (stdout w)
      + 4 * length (search_response sdk client (rag_request question)).
Proof.
  unfold retrieve_documents. rewrite bind_run, search_run.
  set (r := fresh (dom (heap w))). set (w1 := set_heap _ w).
  assert (heap w1 !! r = Some {| paged_client := client;
                                 paged_request := rag_request question;
                                 _page_iterator := None |}) as Hit
    by apply lookup_insert_eq.
  rewrite bind_run, for_in_run.
  rewrite (pending_unstarted sdk r w1 _ Hit eq_refl). simpl.
  destruct (sdk_raises sdk _) as [e|]; [done|].
  set (rows := search_response sdk client (rag_request question)).
  set (w2 := set_heap _ _).
  destruct (for_items r rows _ tt w2) as [[e|[]] w3] eqn:Hloop; [done|].
  m_simpl. intros [= <- <-].
  split_and!.
  - apply (for_items_exhausts (λ _ result, print_result result)
             (λ _ result w0, proj1 (print_result_frame result w0))
             r rows tt w2 tt w3
             {| paged_client := client; paged_request := rag_request question;
                _page_iterator := Some rows |}); [|done|done].
    subst w2 w1. simpl. by rewrite lookup_alter_eq, lookup_insert_eq.
  - pose proof (for_items_log r rows (λ _ result, print_result result) tt w2) as Hl.
    rewrite Hloop in Hl. simpl in Hl. rewrite Hl; [done|].
    intros _ result w0. apply print_result_frame.
  - pose proof (for_items_frame environ r rows (λ _ result, print_result result) tt w2)
      as He.
    rewrite Hloop in He. simpl in He. rewrite He; [done|done|].
    intros _ result w0. apply print_result_frame.
  - eapply (for_items_stdout_length r rows _ 4) in Hloop.
    + rewrite Hloop. subst w2 w1. simpl. lia.
    + intros _ result w0 u w5. apply print_result_lines.
Qed.
End Rag.

Section Generation.
Context (sdk : SDK).
Implicit Types (w : World) (client : SearchClient) (openai_client : AzureOpenAI).

(** The body of the context loop. *)
Lemma context_body_run (context : pystr) (result : pydict) w :
  (chunk ← lift (dict_getitem "chunk" result);
   piece ← lift (add_str chunk [newline; newline]);
   mret (context ++ piece)) w
  = (match dict_get "chunk" result with
     | Some (PyStr c) => inr (context ++ c ++ [newline; newline])
     | Some _ => inl TypeError
     | None => inl (KeyError ["chunk"])
     end, w).
Proof.
  unfold dict_getitem, add_str. m_simpl.
  destruct (dict_get "chunk" result) as [[]|]; reflexivity.
Qed.



(** On an exhausted iterator the context loop does nothing. *)
Lemma collect_context_exhausted ref w :
  holds w ref [] → collect_context sdk ref w = (inr [], w).
Proof.
  intros Hholds. unfold collect_context.
  by rewrite for_in_run, (pending_started sdk ref w [] Hholds).
Qed.

(** Step 6 sends one chat request: the system message built from the
    collected context, and the question as the user message. *)
Lemma generate_response_log openai_client ref question w ctx w1 :
  collect_context sdk ref w = (inr ctx, w1) →
  sdk_log (generate_response sdk openai_client ref question w).2
  = sdk_log w1
    ++ [ChatCompletionsCreate openai_client
          (chat_request (environ w1 !! "AZURE_OPENAI_CHAT_COMPLETION_DEPLOYED_MODEL_NAME")
             ctx question)].
Proof.
  intros Hctx. unfold generate_response. rewrite bind_run, Hctx.
  unfold os_getenv, sdk_call, print. m_simpl.
  destruct (sdk_raises sdk _); [done|].
  destruct (chat_response sdk _ _); done.
Qed.

Lemma get_embedding_run openai_client (text : pystr) w :
  let model := environ w !! "AZURE_OPENAI_EMBEDDING_DEPLOYED_MODEL_NAME" in
  let call := EmbeddingsCreate openai_client model text in
  get_embedding sdk openai_client text w =
    (match sdk_raises sdk call with
     | Some e => inl e
     | None => match embeddings_response sdk openai_client model text with
               | [] => inl IndexError
               | first :: _ => inr first
               end
     end, set_sdk_log (λ log, log ++ [call]) w).
Proof.
  intros model call. unfold get_embedding, os_getenv, sdk_call. m_simpl.
  fold model. fold call. destruct (sdk_raises sdk call); [done|].
  destruct (embeddings_response sdk _ _ _); done.
Qed.

Lemma prepare_question_value openai_client (question : pystr) w :
  (prepare_question sdk openai_client question w).1
  = (get_embedding sdk openai_client question w).1.
Proof.
  unfold prepare_question. rewrite bind_run.
  destruct (get_embedding sdk openai_client question w) as [[e|v] w1]; done.
Qed.

(** The chat request of a run of the RAG notebook that reaches its end:
    whatever was retrieved, the context is empty. *)
Lemma rag_notebook_chat_request dotenv_file (question : pystr) w answer w' :
  rag_notebook sdk dotenv_file question w = (inr answer, w') →
  ∃ openai_client chat_model,
    last (sdk_log w')
    = Some (ChatCompletionsCreate openai_client (chat_request chat_model [] question)).
Proof.
  unfold rag_notebook.
  intros ([openai_client client] & w1 & _ & Hrun)%bind_inr_inv.
  apply bind_inr_inv in Hrun as (vector & w2 & _ & Hrun).
  apply bind_inr_inv in Hrun as (ref & w3 & Hretrieve & Hgen).
  apply retrieve_documents_inr in Hretrieve as (Hit & _).
  assert (holds w3 ref []) as Hholds by (eexists; split; [exact Hit|done]).
  pose proof (generate_response_log openai_client ref question w3 [] w3
                (collect_context_exhausted ref w3 Hholds)) as Hlog.
  rewrite Hgen in Hlog. simpl in Hlog. rewrite Hlog, last_snoc. eauto.
Qed.
End Generation.

Section RequestClaims.
Context (sdk : SDK).
Implicit Types (w : World) (client : SearchClient).


(** C5. The hybrid search passes one string twice: as [search_text] and as
    the text of its only vector query, a [VectorizableTextQuery] with
    [k_nearest_neighbors=50] over [text_vector]; and the request sent by
    the cell is this one. *)
Theorem hybrid_search_one_query (s : pystr) client w :
  search_text (hybrid_request s) = Some s
  ∧ vector_queries (hybrid_request s)
    = [VectorizableTextQuery s 50 (lit "text_vector")]
  ∧ sdk_log (search_cell sdk client (hybrid_request s) w).2
    = sdk_log w ++ [SearchPost client (hybrid_request s)].
Proof. split_and!; [done|done|]. apply search_cell_run. Qed.

(** C6. The semantic-ranker request is the hybrid request with
    [query_type] and [semantic_configuration_name] set, which the hybrid
    request leaves unset: same text, same vector query, same [top], same
    [select]. *)
Theorem semantic_request_extends_hybrid (s : pystr) :
  semantic_request s
  = {| search_text := search_text (hybrid_request s);
       vector_queries := vector_queries (hybrid_request s);
       top := top (hybrid_request s);
       select := select (hybrid_request s);
       query_type := Some (lit "semantic");
       semantic_configuration_name := Some (lit "sopravector2-semantic-configuration") |}
  ∧ query_type (hybrid_request s) = None
  ∧ semantic_configuration_name (hybrid_request s) = None.
Proof. done. Qed.

(** C7, as amended. [get_embedding(text)] sends one embeddings request
    with [input=text] and returns [data[0].embedding] of the answer
    (and does return it when the call does not raise and [data] is not
    empty); [user_question_vector] is [get_embedding(user_question)]; the
    retrieval request carries the question as the text of a
    [VectorizableTextQuery] and no vector, and the same question is the
    user message of the chat request. *)
Theorem get_embedding_first_of_response (openai_client : AzureOpenAI)
    (text : pystr) w :
  (∀ v w', get_embedding sdk openai_client text w = (inr v, w') →
     head (embeddings_response sdk openai_client
             (environ w !! "AZURE_OPENAI_EMBEDDING_DEPLOYED_MODEL_NAME") text) = Some v
     ∧ sdk_log w'
       = sdk_log w ++ [EmbeddingsCreate openai_client
                         (environ w !! "AZURE_OPENAI_EMBEDDING_DEPLOYED_MODEL_NAME") text])
  ∧ (∀ first rest,
       sdk_raises sdk (EmbeddingsCreate openai_client
                         (environ w !! "AZURE_OPENAI_EMBEDDING_DEPLOYED_MODEL_NAME") text)
       = None →
       embeddings_response sdk openai_client
         (environ w !! "AZURE_OPENAI_EMBEDDING_DEPLOYED_MODEL_NAME") text = first :: rest →
       (get_embedding sdk openai_client text w).1 = inr first)
  ∧ (prepare_question sdk openai_client text w).1
    = (get_embedding sdk openai_client text w).1
  ∧ vector_queries (rag_request text) = [VectorizableTextQuery text 3 (lit "text_vector")]
  ∧ (∀ chat_model context,
       content <$> last (messages (chat_request chat_model context text)) = Some text).
Proof.
  pose proof (get_embedding_run sdk openai_client text w) as Hrun. simpl in Hrun.
  split_and!.
  - intros v w'. rewrite Hrun.
    destruct (sdk_raises sdk _); [done|].
    destruct (embeddings_response sdk _ _ _); [done|]. by intros [= <- <-].
  - intros first rest Hok Hresp. by rewrite Hrun, Hok, Hresp.
  - apply prepare_question_value.
  - done.
  - done.
Qed.
End RequestClaims.



Section Clients.
Context (sdk : SDK).
Implicit Types (w : World) (dotenv_file : gmap string pystr).

Lemma truthy_spec (v : option pystr) :
  truthy v = true ↔ ∃ key, v = Some key ∧ key ≠ [].
Proof.
  destruct v as [[|c key]|]; simpl; split; try done.
  - by intros (key & [= <-] & ?).
  - eauto.
  - by intros (key & ? & _).
Qed.

(** The two clients that step 3 of the RAG notebook builds, read off its
    branches. *)
Lemma setup_api_clients_inr dotenv_file w openai_client search_client w' :
  setup_api_clients sdk dotenv_file w = (inr (openai_client, search_client), w') →
  auth openai_client
  = (if truthy ((dotenv_file ∪ environ w) !! "AZURE_OPENAI_API_KEY")
     then api_key (default [] ((dotenv_file ∪ environ w) !! "AZURE_OPENAI_API_KEY"))
     else azure_ad_token_provider DefaultAzureCredential cognitive_scope)
  ∧ credential search_client
    = (if truthy ((dotenv_file ∪ environ w) !! "AZURE_SEARCH_ADMIN_KEY")
       then AzureKeyCredential ((dotenv_file ∪ environ w) !! "AZURE_SEARCH_ADMIN_KEY")
       else DefaultAzureCredential).
Proof.
  unfold setup_api_clients, load_dotenv, os_getenv, new_search_client, sdk_call.
  m_simpl.
  destruct (truthy (_ !! "AZURE_OPENAI_API_KEY"));
    destruct (truthy (_ !! "AZURE_SEARCH_ADMIN_KEY"));
    repeat (case_match; simpl; try done); intros; by simplify_eq/=.
Qed.

Lemma openai_auth_branch (v : option pystr) :
  let a := if truthy v then api_key (default [] v)
           else azure_ad_token_provider DefaultAzureCredential cognitive_scope in
  ((∃ key, a = api_key key) ↔ ∃ key, v = Some key ∧ key ≠ [])
  ∧ (∀ key, v = Some key → key ≠ [] → a = api_key key)
  ∧ (v = None ∨ v = Some [] → a = azure_ad_token_provider DefaultAzureCredential cognitive_scope).
Proof. destruct v as [[|c key]|]; simpl; split_and!; naive_solver. Qed.

Lemma search_credential_branch (v : option pystr) :
  let c := if truthy v then AzureKeyCredential v else DefaultAzureCredential in
  ((∃ key, c = AzureKeyCredential key) ↔ ∃ key, v = Some key ∧ key ≠ [])
  ∧ (∀ key, v = Some key → key ≠ [] → c = AzureKeyCredential (Some key))
  ∧ (v = None ∨ v = Some [] → c = DefaultAzureCredential).
Proof. destruct v as [[|c key]|]; simpl; split_and!; naive_solver. Qed.

(** C8. In the RAG notebook, whatever the environment and the [.env]
    file: the OpenAI client is built with [api_key] exactly when
    [AZURE_OPENAI_API_KEY] is set to a non-empty string, and then with
    that string; the search client is built with [AzureKeyCredential]
    exactly when [AZURE_SEARCH_ADMIN_KEY] is set to a non-empty string,
    and then with that string; a variable that is unset or empty gives
    [DefaultAzureCredential] instead (a token provider over it for
    OpenAI). *)
Theorem api_clients_credentials dotenv_file w openai_client search_client w' :
  setup_api_clients sdk dotenv_file w = (inr (openai_client, search_client), w') →
  ((∃ key, auth openai_client = api_key key)
   ↔ ∃ key, (dotenv_file ∪ environ w) !! "AZURE_OPENAI_API_KEY" = Some key ∧ key ≠ [])
  ∧ (∀ key, (dotenv_file ∪ environ w) !! "AZURE_OPENAI_API_KEY" = Some key →
       key ≠ [] → auth openai_client = api_key key)
  ∧ ((dotenv_file ∪ environ w) !! "AZURE_OPENAI_API_KEY" = None
     ∨ (dotenv_file ∪ environ w) !! "AZURE_OPENAI_API_KEY" = Some [] →
     auth openai_client = azure_ad_token_provider DefaultAzureCredential cognitive_scope)
  ∧ ((∃ key, credential search_client = AzureKeyCredential key)
     ↔ ∃ key, (dotenv_file ∪ environ w) !! "AZURE_SEARCH_ADMIN_KEY" = Some key ∧ key ≠ [])
  ∧ (∀ key, (dotenv_file ∪ environ w) !! "AZURE_SEARCH_ADMIN_KEY" = Some key →
       key ≠ [] → credential search_client = AzureKeyCredential (Some key))
  ∧ ((dotenv_file ∪ environ w) !! "AZURE_SEARCH_ADMIN_KEY" = None
     ∨ (dotenv_file ∪ environ w) !! "AZURE_SEARCH_ADMIN_KEY" = Some [] →
     credential search_client = DefaultAzureCredential).
Proof.
  intros [Hauth Hcred]%setup_api_clients_inr.
  rewrite Hauth, Hcred.
  destruct (openai_auth_branch ((dotenv_file ∪ environ w) !! "AZURE_OPENAI_API_KEY"))
    as (? & ? & ?).
  destruct (search_credential_branch
              ((dotenv_file ∪ environ w) !! "AZURE_SEARCH_ADMIN_KEY")) as (? & ? & ?).
  done.
Qed.
End Clients.

Section Propagation.
Context (sdk : SDK).
Implicit Types (w : World).

Lemma faithful_inr_clean {A} (x : A) w : faithful sdk (inr x, w) → clean sdk w.
Proof.
  intros Hf. apply Forall_forall. intros call Hin.
  destruct (sdk_raises sdk call) as [e|] eqn:Hr; [|done].
  by specialize (Hf call e Hin Hr).
Qed.

Lemma clean_faithful {A} (r : exn + A) w : clean sdk w → faithful sdk (r, w).
Proof.
  intros Hc call e Hin Hr. unfold clean in Hc. rewrite Forall_forall in Hc.
  rewrite (Hc call Hin) in Hr. done.
Qed.

Lemma propagates_ret {A} (x : A) : propagates sdk (mret x).
Proof. intros w Hc. by apply clean_faithful. Qed.

Lemma propagates_raise {A} e : propagates sdk (raise (A:=A) e).
Proof. intros w Hc. by apply clean_faithful. Qed.

Lemma propagates_lift {A} (r : exn + A) : propagates sdk (lift r).
Proof. intros w Hc. by apply clean_faithful. Qed.

Lemma propagates_gets {A} (f : World → A) : propagates sdk (gets f).
Proof. intros w Hc. by apply clean_faithful. Qed.

Lemma propagates_modify (f : World → World) :
  (∀ w, sdk_log (f w) = sdk_log w) → propagates sdk (modify f).
Proof. intros Hf w Hc. apply clean_faithful. unfold clean. by rewrite Hf. Qed.

Lemma propagates_bind {A B} (m : M A) (f : A → M B) :
  propagates sdk m → (∀ x, propagates sdk (f x)) → propagates sdk (m ≫= f).
Proof.
  intros Hm Hf w Hc. specialize (Hm w Hc). rewrite bind_run.
  destruct (m w) as [[e|x] w1].
  - intros call e' Hin Hr. specialize (Hm call e' Hin Hr). simpl in *. congruence.
  - apply Hf. by eapply faithful_inr_clean.
Qed.

(** What the call raises is the outcome. *)
Lemma propagates_sdk_call {A} call (response : A) :
  propagates sdk (sdk_call sdk call response).
Proof.
  intros w Hc call' e. unfold sdk_call. m_simpl.
  unfold clean in Hc. rewrite Forall_forall in Hc.
  destruct (sdk_raises sdk call) as [e0|] eqn:Hr; simpl;
    intros [Hin| ->%list_elem_of_singleton]%elem_of_app Hr';
    try (rewrite (Hc call' Hin) in Hr'; done); congruence.
Qed.

Lemma propagates_print args : propagates sdk (print args).
Proof. by apply propagates_modify. Qed.

Lemma propagates_set_pending ref rest : propagates sdk (set_pending ref rest).
Proof. by apply propagates_modify. Qed.

Lemma propagates_for_items {S} ref items (body : S → pydict → M S) s :
  (∀ s result, propagates sdk (body s result)) →
  propagates sdk (for_items ref items body s).
Proof.
  intros Hbody. revert s. induction items as [|result rest IH]; intros s; simpl.
  - apply propagates_ret.
  - apply propagates_bind; [apply propagates_set_pending|]. intros _.
    apply propagates_bind; [apply Hbody | apply IH].
Qed.
End Propagation.

Create HintDb propagates discriminated.
#[export] Hint Resolve propagates_ret propagates_raise propagates_lift
  propagates_gets propagates_sdk_call propagates_print propagates_set_pending
  : propagates.

(** Goes through a cell statement by statement. *)
Ltac propagate :=
  repeat first
    [ progress (eauto with propagates)
    | apply propagates_bind; [|intros ?]
    | apply propagates_for_items; intros ? ?
    | apply propagates_modify; intros ?; reflexivity
    | match goal with
      | |- propagates _ (match ?x with _ => _ end) => destruct x
      | |- propagates _ (if ?b then _ else _) => destruct b
      | |- propagates _ (let '(_, _) := ?p in _) => destruct p
      end ].

Section PropagationCells.
Context (sdk : SDK).

Lemma propagates_pending ref : propagates sdk (pending sdk ref).
Proof. unfold pending. propagate. Qed.

Lemma propagates_for_in {S} ref (body : S → pydict → M S) s :
  (∀ s result, propagates sdk (body s result)) →
  propagates sdk (for_in sdk ref body s).
Proof.
  intros Hbody. unfold for_in.
  apply propagates_bind; [apply propagates_pending|]. intros items.
  by apply propagates_for_items.
Qed.

Lemma propagates_search_cell client request :
  propagates sdk (search_cell sdk client request).
Proof.
  unfold search_cell, search, display_results, py_list.
  propagate.
Qed.

Lemma propagates_search_notebook dotenv_file (s : pystr) :
  propagates sdk (search_notebook sdk dotenv_file s).
Proof.
  unfold search_notebook, load_environment, load_dotenv, os_environ_getitem,
    os_getenv, new_search_client.
  pose proof propagates_search_cell. propagate.
Qed.

Lemma propagates_rag_notebook dotenv_file (question : pystr) :
  propagates sdk (rag_notebook sdk dotenv_file question).
Proof.
  unfold rag_notebook, setup_api_clients, prepare_question, retrieve_documents,
    generate_response, collect_context, get_embedding, print_result, search,
    load_dotenv, os_getenv, new_search_client.
  propagate.
Qed.
End PropagationCells.

Section Exceptions.
Context (sdk : SDK).
Implicit Types (dotenv_file env : gmap string pystr).

Lemma load_environment_run dotenv_file w :
  (load_environment sdk dotenv_file w).1 =
    match (dotenv_file ∪ environ w) !! "AZURE_SEARCH_SERVICE_ENDPOINT" with
    | None => inl (KeyError ["AZURE_SEARCH_SERVICE_ENDPOINT"])
    | Some endpoint =>
        match (dotenv_file ∪ environ w) !! "AZURE_SEARCH_INDEX" with
        | None => inl (KeyError ["AZURE_SEARCH_INDEX"])
        | Some index_name =>
            let key := (dotenv_file ∪ environ w) !! "AZURE_SEARCH_ADMIN_KEY" in
            match sdk_raises sdk (NewAzureKeyCredential key) with
            | Some e => inl e
            | None => inr (endpoint, index_name, AzureKeyCredential key)
            end
        end
    end.
Proof.
  unfold load_environment, load_dotenv, os_environ_getitem, os_getenv, sdk_call.
  m_simpl.
  destruct ((dotenv_file ∪ environ w) !! "AZURE_SEARCH_SERVICE_ENDPOINT"); simpl; [|done].
  destruct ((dotenv_file ∪ environ w) !! "AZURE_SEARCH_INDEX"); simpl; [|done].
  destruct (sdk_raises sdk _); done.
Qed.

Lemma search_notebook_load_error dotenv_file (s : pystr) w e :
  (load_environment sdk dotenv_file w).1 = inl e →
  (search_notebook sdk dotenv_file s w).1 = inl e.
Proof.
  unfold search_notebook. rewrite bind_run.
  destruct (load_environment sdk dotenv_file w) as [[e'|x] w1]; simpl.
  - by intros [= ->].
  - discriminate.
Qed.

(** C4. The load step of the search notebook raises [KeyError] when
    [AZURE_SEARCH_SERVICE_ENDPOINT] is unset, and when it is set but
    [AZURE_SEARCH_INDEX] is unset, and that is then the outcome of the
    notebook; and in a run of either notebook, what an SDK call raises is
    the outcome of the run, unchanged. *)
Theorem exceptions_pass_through dotenv_file env (s : pystr) :
  ((dotenv_file ∪ env) !! "AZURE_SEARCH_SERVICE_ENDPOINT" = None →
     (load_environment sdk dotenv_file (initial_world env)).1
     = inl (KeyError ["AZURE_SEARCH_SERVICE_ENDPOINT"])
     ∧ (search_notebook sdk dotenv_file s (initial_world env)).1
       = inl (KeyError ["AZURE_SEARCH_SERVICE_ENDPOINT"]))
  ∧ (is_Some ((dotenv_file ∪ env) !! "AZURE_SEARCH_SERVICE_ENDPOINT") →
     (dotenv_file ∪ env) !! "AZURE_SEARCH_INDEX" = None →
     (load_environment sdk dotenv_file (initial_world env)).1
     = inl (KeyError ["AZURE_SEARCH_INDEX"])
     ∧ (search_notebook sdk dotenv_file s (initial_world env)).1
       = inl (KeyError ["AZURE_SEARCH_INDEX"]))
  ∧ (∀ call e,
       call ∈ sdk_log (search_notebook sdk dotenv_file s (initial_world env)).2 →
       sdk_raises sdk call = Some e →
       (search_notebook sdk dotenv_file s (initial_world env)).1 = inl e)
  ∧ (∀ call e,
       call ∈ sdk_log (rag_notebook sdk dotenv_file s (initial_world env)).2 →
       sdk_raises sdk call = Some e →
       (rag_notebook sdk dotenv_file s (initial_world env)).1 = inl e).
Proof.
  assert (clean sdk (initial_world env)) as Hclean by constructor.
  split_and!.
  - intros Hnone.
    assert ((load_environment sdk dotenv_file (initial_world env)).1
            = inl (KeyError ["AZURE_SEARCH_SERVICE_ENDPOINT"])) as Hload
      by (rewrite load_environment_run; simpl; by rewrite Hnone).
    split; [done | by apply search_notebook_load_error].
  - intros [endpoint Hsome] Hnone.
    assert ((load_environment sdk dotenv_file (initial_world env)).1
            = inl (KeyError ["AZURE_SEARCH_INDEX"])) as Hload
      by (rewrite load_environment_run; simpl; by rewrite Hsome, Hnone).
    split; [done | by apply search_notebook_load_error].
  - apply (propagates_search_notebook sdk dotenv_file s _ Hclean).
  - apply (propagates_rag_notebook sdk dotenv_file s _ Hclean).
Qed.
End Exceptions.

(** C4 on a service whose search call fails with error 503: the search
    notebook ends with that error. *)
Lemma exceptions_pass_through_witness :
  (search_notebook failing_search_sdk sample_search_env searchText (initial_world ∅)).1
  = inl (ExternalError 503).
Proof.
  destruct (exceptions_pass_through failing_search_sdk sample_search_env ∅ searchText)
    as (_ & _ & Hsearch & _).
  apply (Hsearch (SearchPost sample_client (keyword_request searchText))).
  - vm_compute. apply list_elem_of_In. right. right. left. reflexivity.
  - reflexivity.
Defined.

(** C8 on a [.env] file with an OpenAI key and an empty search key. *)
Lemma api_clients_credentials_witness :
  ∃ openai_client search_client w',
    setup_api_clients sample_sdk sample_dotenv (initial_world ∅)
    = (inr (openai_client, search_client), w')
    ∧ auth openai_client = api_key (lit "sk-1")
    ∧ credential search_client = DefaultAzureCredential.
Proof.
  destruct (setup_api_clients sample_sdk sample_dotenv (initial_world ∅))
    as [[e|[openai_client search_client]] w'] eqn:Hrun.
  - vm_compute in Hrun. discriminate.
  - exists openai_client, search_client, w'. split; [done|].
    destruct (api_clients_credentials sample_sdk sample_dotenv (initial_world ∅)
                openai_client search_client w' Hrun)
      as (_ & Hkey & _ & _ & _ & Hdefault).
    split.
    + apply Hkey; [vm_compute; reflexivity | discriminate].
    + apply Hdefault. right. vm_compute. reflexivity.
Defined.

(** C1: the code at a failing input. On the sample index the retrieval
    gives three results with non-empty chunks and the printing loop prints
    them, yet the chat request that follows has an empty context: its system
    message is [system_message []], not the one holding the three chunks;
    the user message is the question. *)
Theorem rag_notebook_sends_empty_context :
  sample_rag_run.1 = inr (Some (lit "Hvert andre aar."))
  ∧ (λ d, dict_get "chunk" d)
      <$> search_response sample_sdk
            {| endpoint := None; index_name := None; credential := DefaultAzureCredential |}
            (rag_request user_question)
    = (λ c, Some (PyStr c)) <$> sample_chunks
  ∧ length (stdout sample_rag_run.2) = 3 + 4 * 3 + 1
  ∧ chat_requests (sdk_log sample_rag_run.2) = [chat_request None [] user_question]
  ∧ messages (chat_request None [] user_question)
    = [ {| role := lit "system"; content := system_message [] |};
        {| role := lit "user"; content := user_question |} ]
  ∧ system_message [] ≠ system_message (sample_chunks ≫= λ c, c ++ [newline; newline]).
Proof.
  split_and!; try (vm_compute; reflexivity).
  intros Heq. apply (f_equal length) in Heq. vm_compute in Heq. discriminate.
Qed.

(** The claim C7 as stated fails: in the sample run [user_question_vector]
    is what [get_embedding] returned, and the only search request has a
    single vector query, which carries the question's text and no vector. *)
Lemma rag_retrieval_sends_text_not_vector :
  (get_embedding sample_sdk
     {| auth := azure_ad_token_provider DefaultAzureCredential cognitive_scope;
        azure_endpoint := None; api_version := lit "2024-10-21" |}
     user_question (initial_world ∅)).1 = inr [FDec 12 (-2); FDec (-5) (-1)]
  ∧ vector_queries <$> search_requests (sdk_log sample_rag_run.2)
    = [[VectorizableTextQuery user_question 3 (lit "text_vector")]]
  ∧ ¬ ∃ k fields,
        vector_queries <$> search_requests (sdk_log sample_rag_run.2)
        = [[VectorizedQuery [FDec 12 (-2); FDec (-5) (-1)] k fields]].
Proof.
  split_and!; [vm_compute; reflexivity | vm_compute; reflexivity |].
  intros (k & fields & Heq). vm_compute in Heq. discriminate.
Qed.

(** * Further properties of the cells *)

Section DisplayShape.
Context (sdk : SDK).
Implicit Types (w : World) (rows : list pydict) (sty : Styler).

Lemma py_list_exhausts ref w rows w' :
  py_list sdk ref w = (inr rows, w') → holds w' ref [].
Proof.
  unfold py_list. intros Hrun.
  eapply for_in_exhausts in Hrun as (it & _ & Hit); [|done].
  eexists. split; [exact Hit|done].
Qed.

Lemma py_list_exhausted ref w :
  holds w ref [] → py_list sdk ref w = (inr [], w).
Proof.
  intros Hholds. unfold py_list.
  by rewrite for_in_run, (pending_started sdk ref w [] Hholds).
Qed.

(** X1. [display_results] uses up the results it is given: once
    [list(results)] has run, a second [display_results] on the same object
    finds no rows and raises [KeyError] for ["chunk"], whatever the first
    call displayed. *)
Theorem display_results_consumes_results results w rows w' :
  py_list sdk results w = (inr rows, w') →
  (display_results sdk results w).2 = w'
  ∧ py_list sdk results w' = (inr [], w')
  ∧ display_results sdk results w' = (inl (KeyError ["chunk"]), w').
Proof.
  intros Hlist. pose proof (py_list_exhausts _ _ _ _ Hlist) as Hholds.
  pose proof (py_list_exhausted _ _ Hholds) as Hagain.
  split_and!.
  - by rewrite display_results_run, Hlist.
  - done.
  - by rewrite display_results_run, Hagain.
Qed.

Lemma ordered_Permutation (names : list string) :
  NoDup names → Forall (λ n, n ∈ names) first_cols →
  ordered names ≡ₚ names ∧ NoDup (ordered names).
Proof.
  intros Hnd Hall. rewrite Forall_forall in Hall.
  assert (NoDup first_cols) as Hfirst.
  { unfold first_cols. repeat (apply NoDup_cons; split; [set_solver|]).
    apply NoDup_nil_2. }
  assert (first_cols ≡ₚ filter (λ col, col ∈ first_cols) names) as Hperm.
  { apply NoDup_Permutation; [done | by apply NoDup_filter |].
    intros n. rewrite list_elem_of_filter. naive_solver. }
  split.
  - unfold ordered. rewrite Hperm. apply filter_app_complement.
  - unfold ordered. apply NoDup_app. split_and!; [done| |by apply NoDup_filter].
    intros n Hn [Hnot _]%list_elem_of_filter. done.
Qed.

(** X2. The table [display_results] returns has pairwise distinct column
    labels, and they are a rearrangement of the labels left after [dropna]:
    moving the three leading columns to the front loses and repeats
    nothing. Every column has one cell for each result and at least one
    cell that is not null, so no all-null column is ever shown. *)
Theorem display_results_table_shape results w sty w' :
  display_results sdk results w = (inr sty, w') →
  ∃ rows, py_list sdk results w = (inr rows, w')
    ∧ NoDup (df_columns (data sty))
    ∧ df_columns (data sty) ≡ₚ df_columns (normalized rows)
    ∧ ∀ name, name ∈ df_columns (data sty) →
        ∃ col, df_get name (data sty) = Some col
          ∧ length col = length rows
          ∧ Exists (λ v, isna v = false) col.
Proof.
  intros (rows & Hlist & Htable)%display_results_inr. exists rows.
  split; [done|].
  apply display_table_inv in Htable as (col' & Hm & Hchunk & Hfirst & Hcols & Hget).
  destruct (ordered_Permutation (kept rows) (kept_NoDup rows) Hfirst) as [Hperm Hnd].
  rewrite Hcols, normalized_frame, frame_of_columns. split_and!; [done|done|].
  intros name Hname. rewrite Hperm in Hname. rewrite Hget, decide_True by done.
  apply mapM_result_inr in Hm.
  apply kept_elem in Hname as (d & Hd & Hna).
  destruct (decide (name = "chunk")) as [->|Hne].
  - exists col'. split; [done|]. split.
    + rewrite <- (Forall2_length _ _ _ Hm). apply length_fmap.
    + apply list_elem_of_lookup in Hd as [i Hi].
      assert ((cell "chunk" <$> rows) !! i = Some (cell "chunk" d)) as Hcell
        by (by rewrite list_lookup_fmap, Hi).
      destruct (Forall2_lookup_l _ _ _ _ _ Hm Hcell) as (c & Hc & Htr).
      apply Exists_exists. exists c. split; [by eapply list_elem_of_lookup_2|].
      destruct (cell "chunk" d) as [|s| |[]|l]; simpl in *; try done.
      * injection Htr as <-. by case_decide.
      * case_decide; [done|]. by injection Htr as <-.
  - exists (cell name <$> rows). split; [done|]. split; [apply length_fmap|].
    apply Exists_exists. exists (cell name d). split; [|done].
    apply list_elem_of_fmap. eauto.
Qed.

(** X3. The lambda of the truncation step, on any string: the result is a
    string of at most 303 characters that starts with the same (up to) 300
    characters, and truncating it again changes nothing. *)
Theorem truncate_chunk_bounded_idempotent (s : pystr) :
  ∃ t, truncate_chunk (PyStr s) = inr (PyStr t)
    ∧ length t ≤ 303
    ∧ take 300 t = take 300 s
    ∧ truncate_chunk (PyStr t) = inr (PyStr t).
Proof.
  simpl. destruct (decide (300 < length s)) as [Hlong|Hshort].
  - exists (take 300 s ++ lit "..."). split; [done|].
    assert (length (take 300 s) = 300) as Hlen by (rewrite length_take; lia).
    assert (take 300 (take 300 s ++ lit "...") = take 300 s) as Htake.
    { rewrite take_app_le by lia. apply take_ge. lia. }
    split_and!.
    + rewrite length_app, Hlen. change (length (lit "...")) with 3. lia.
    + done.
    + rewrite decide_True; [by rewrite Htake|].
      rewrite length_app, Hlen. change (length (lit "...")) with 3. lia.
  - exists s. split_and!; [done| |done|by rewrite decide_False]. 
    assert (length s ≤ 300) by lia. lia.
Qed.
End DisplayShape.

(** X1 on the sample index: the hybrid search displayed twice. *)
Lemma display_results_consumes_results_witness :
  ∃ rows w',
    py_list sample_sdk 0 (searched (hybrid_request searchText)) = (inr rows, w')
    ∧ (display_results sample_sdk 0 (searched (hybrid_request searchText))).2 = w'
    ∧ py_list sample_sdk 0 w' = (inr [], w')
    ∧ display_results sample_sdk 0 w' = (inl (KeyError ["chunk"]), w').
Proof.
  eexists _, _. split; [vm_compute; reflexivity|].
  eapply (display_results_consumes_results sample_sdk 0
            (searched (hybrid_request searchText))).
  vm_compute. reflexivity.
Defined.

(** X2 on the sample index. *)
Lemma display_results_table_shape_witness :
  ∃ sty w',
    display_results sample_sdk 0 (searched (hybrid_request searchText)) = (inr sty, w')
    ∧ ∃ rows, py_list sample_sdk 0 (searched (hybrid_request searchText)) = (inr rows, w')
      ∧ NoDup (df_columns (data sty))
      ∧ df_columns (data sty) ≡ₚ df_columns (normalized rows)
      ∧ ∀ name, name ∈ df_columns (data sty) →
          ∃ col, df_get name (data sty) = Some col
            ∧ length col = length rows
            ∧ Exists (λ v, isna v = false) col.
Proof.
  eexists _, _. split; [vm_compute; reflexivity|].
  apply (display_results_table_shape sample_sdk 0
           (searched (hybrid_request searchText))).
  vm_compute. reflexivity.
Defined.

Section CallLogs.
Context (sdk : SDK) (P : SdkCall → Prop).

Lemma logs_only_quiet {A} (m : M A) :
  (∀ w, sdk_log (m w).2 = sdk_log w) → logs_only P m.
Proof. intros Hm w. exists []. by rewrite app_nil_r, Hm. Qed.

Lemma logs_only_ret {A} (x : A) : logs_only P (mret x).
Proof. by apply logs_only_quiet. Qed.

Lemma logs_only_raise {A} e : logs_only P (raise (A:=A) e).
Proof. by apply logs_only_quiet. Qed.

Lemma logs_only_lift {A} (r : exn + A) : logs_only P (lift r).
Proof. by apply logs_only_quiet. Qed.

Lemma logs_only_gets {A} (f : World → A) : logs_only P (gets f).
Proof. by apply logs_only_quiet. Qed.

Lemma logs_only_print args : logs_only P (print args).
Proof. by apply logs_only_quiet. Qed.

Lemma logs_only_set_pending ref rest : logs_only P (set_pending ref rest).
Proof. by apply logs_only_quiet. Qed.

Lemma logs_only_bind {A B} (m : M A) (f : A → M B) :
  logs_only P m → (∀ x, logs_only P (f x)) → logs_only P (m ≫= f).
Proof.
  intros Hm Hf w. destruct (Hm w) as (calls & Hlog & Hall). rewrite bind_run.
  destruct (m w) as [[e|x] w1]; simpl in *; [eauto|].
  destruct (Hf x w1) as (calls' & Hlog' & Hall').
  exists (calls ++ calls'). split; [|by apply Forall_app].
  by rewrite Hlog', Hlog, app_assoc.
Qed.

Lemma logs_only_sdk_call {A} call (response : A) :
  P call → logs_only P (sdk_call sdk call response).
Proof.
  intros Hcall w. exists [call]. split; [|by repeat constructor].
  unfold sdk_call. m_simpl. by destruct (sdk_raises sdk call).
Qed.

Lemma logs_only_for_items {S} ref items (body : S → pydict → M S) s :
  (∀ s result, logs_only P (body s result)) →
  logs_only P (for_items ref items body s).
Proof.
  intros Hbody. revert s. induction items as [|result rest IH]; intros s; simpl.
  - apply logs_only_ret.
  - apply logs_only_bind; [apply logs_only_set_pending|]. intros _.
    apply logs_only_bind; [apply Hbody | apply IH].
Qed.
End CallLogs.

(** Goes through a cell statement by statement, leaving the conditions on
    its SDK calls. *)
Ltac log_cell :=
  repeat first
    [ apply logs_only_ret | apply logs_only_raise | apply logs_only_lift
    | apply logs_only_gets | apply logs_only_print
    | apply logs_only_set_pending
    | apply logs_only_quiet; intros ?; reflexivity
    | apply logs_only_sdk_call
    | apply logs_only_bind; [|intros ?]
    | apply logs_only_for_items; intros ? ?
    | match goal with
      | |- logs_only _ (match ?x with _ => _ end) => destruct x
      | |- logs_only _ (if ?b then _ else _) => destruct b
      | |- logs_only _ (let '(_, _) := ?p in _) => destruct p
      end ].

Section SearchNotebook.
Context (sdk : SDK).
Implicit Types (w : World) (client : SearchClient) (request : SearchRequest)
  (dotenv_file : gmap string pystr).

(** X4. In no run of the search notebook, whether it ends well or not, is
    there an SDK call other than [AzureKeyCredential], [SearchClient] and
    [search]: it never falls back to [DefaultAzureCredential], although it
    imports it. *)
Theorem search_notebook_calls dotenv_file (s : pystr) w :
  ∃ calls,
    sdk_log (search_notebook sdk dotenv_file s w).2 = sdk_log w ++ calls
    ∧ Forall search_notebook_call calls
    ∧ NewDefaultAzureCredential ∉ calls.
Proof.
  assert (logs_only search_notebook_call (search_notebook sdk dotenv_file s)) as Hlog.
  { unfold search_notebook, load_environment, load_dotenv, os_environ_getitem,
      os_getenv, new_search_client, search_cell, search, display_results, py_list,
      for_in, pending.
    log_cell; done. }
  destruct (Hlog w) as (calls & Heq & Hall). exists calls. split_and!; [done..|].
  intros Hin. rewrite Forall_forall in Hall. by apply Hall in Hin.
Qed.

(** The whole of a search cell. *)
Lemma search_cell_outcome client request w :
  (search_cell sdk client request w).1
  = match sdk_raises sdk (SearchPost client request) with
    | Some e => inl e
    | None => display_table (search_response sdk client request)
    end.
Proof.
  unfold search_cell. rewrite bind_run, search_run.
  set (ref := fresh (dom (heap w))). set (w1 := set_heap _ w).
  assert (heap w1 !! ref = Some {| paged_client := client; paged_request := request;
                                   _page_iterator := None |}) as Hit
    by apply lookup_insert_eq.
  rewrite display_results_run. unfold py_list. rewrite for_in_run.
  rewrite (pending_unstarted sdk ref w1 _ Hit eq_refl). simpl.
  destruct (sdk_raises sdk _) as [e|]; [done|].
  match goal with
  | |- context [for_items ?r ?i ?b ?s ?w0] =>
      pose proof (for_items_collect r i s w0) as Hc;
      destruct (for_items r i b s w0) as [[e|rows] w2]
  end; simpl in *; [done|].
  by injection Hc as ->.
Qed.

Lemma load_environment_inr dotenv_file w endpoint index_name credential w' :
  load_environment sdk dotenv_file w = (inr (endpoint, index_name, credential), w') →
  (dotenv_file ∪ environ w) !! "AZURE_SEARCH_SERVICE_ENDPOINT" = Some endpoint
  ∧ (dotenv_file ∪ environ w) !! "AZURE_SEARCH_INDEX" = Some index_name
  ∧ credential = AzureKeyCredential ((dotenv_file ∪ environ w) !! "AZURE_SEARCH_ADMIN_KEY")
  ∧ sdk_log w'
    = sdk_log w
      ++ [NewAzureKeyCredential ((dotenv_file ∪ environ w) !! "AZURE_SEARCH_ADMIN_KEY")].
Proof.
  unfold load_environment, load_dotenv, os_environ_getitem, os_getenv, sdk_call.
  m_simpl.
  destruct ((dotenv_file ∪ environ w) !! "AZURE_SEARCH_SERVICE_ENDPOINT"); simpl; [|done].
  destruct ((dotenv_file ∪ environ w) !! "AZURE_SEARCH_INDEX"); simpl; [|done].
  destruct (sdk_raises sdk _); [done|]. by intros [= <- <- <- <-].
Qed.

Lemma new_search_client_inr endpoint index_name credential w client w' :
  new_search_client sdk endpoint index_name credential w = (inr client, w') →
  client = {| endpoint := endpoint; index_name := index_name; credential := credential |}
  ∧ sdk_log w' = sdk_log w ++ [NewSearchClient endpoint index_name credential].
Proof.
  unfold new_search_client, sdk_call. m_simpl.
  destruct (sdk_raises sdk _); [done|]. by intros [= <- <-].
Qed.

Lemma search_cell_inr client request w sty w' :
  search_cell sdk client request w = (inr sty, w') →
  display_table (search_response sdk client request) = inr sty
  ∧ sdk_log w' = sdk_log w ++ [SearchPost client request].
Proof.
  intros Hrun. destruct (search_cell_run sdk client request w) as [Hlog Htable].
  rewrite Hrun in Hlog. split; [by eapply Htable | done].
Qed.

(** X5. A run of the search notebook that reaches its end has read the
    endpoint and the index from the environment, has built one client with
    them and the key credential, and has sent exactly four search requests
    through it, in the order keyword, vector, hybrid, semantic; its four
    tables are the displays of the four answers. *)
Theorem search_notebook_requests dotenv_file (s : pystr) w tables w' :
  search_notebook sdk dotenv_file s w = (inr tables, w') →
  ∃ endpoint index_name,
    (dotenv_file ∪ environ w) !! "AZURE_SEARCH_SERVICE_ENDPOINT" = Some endpoint
    ∧ (dotenv_file ∪ environ w) !! "AZURE_SEARCH_INDEX" = Some index_name
    ∧ let key := (dotenv_file ∪ environ w) !! "AZURE_SEARCH_ADMIN_KEY" in
      let client := {| endpoint := Some endpoint; index_name := Some index_name;
                       credential := AzureKeyCredential key |} in
      sdk_log w'
      = sdk_log w
        ++ [NewAzureKeyCredential key;
            NewSearchClient (Some endpoint) (Some index_name) (AzureKeyCredential key);
            SearchPost client (keyword_request s);
            SearchPost client (vector_request s);
            SearchPost client (hybrid_request s);
            SearchPost client (semantic_request s)]
      ∧ Forall2 (λ request sty,
                   display_table (search_response sdk client request) = inr sty)
          [keyword_request s; vector_request s; hybrid_request s; semantic_request s]
          tables.
Proof.
  unfold search_notebook.
  intros ([[endpoint index_name] cred] & w1 & Hload & Hrun)%bind_inr_inv.
  apply load_environment_inr in Hload as (Hendpoint & Hindex & -> & Hlog1).
  apply bind_inr_inv in Hrun as (client & w2 & Hclient & Hrun).
  apply new_search_client_inr in Hclient as (-> & Hlog2).
  apply bind_inr_inv in Hrun as (t1 & w3 & [Ht1 Hlog3]%search_cell_inr & Hrun).
  apply bind_inr_inv in Hrun as (t2 & w4 & [Ht2 Hlog4]%search_cell_inr & Hrun).
  apply bind_inr_inv in Hrun as (t3 & w5 & [Ht3 Hlog5]%search_cell_inr & Hrun).
  apply bind_inr_inv in Hrun as (t4 & w6 & [Ht4 Hlog6]%search_cell_inr & Hrun).
  injection Hrun as <- <-.
  exists endpoint, index_name. split_and!; [done|done| |by repeat constructor].
  rewrite Hlog6, Hlog5, Hlog4, Hlog3, Hlog2, Hlog1. by rewrite <- !app_assoc.
Qed.

Lemma displayable_table rows :
  rows ≠ [] → Forall displayable rows → ∃ sty, display_table rows = inr sty.
Proof.
  intros Hne Hall. apply display_table_succeeds.
  - destruct rows as [|d rows]; [done|].
    apply Forall_inv in Hall as (t & s & m & e & Ht & Hs & Hsc).
    repeat apply Forall_cons_2; [..|done]; apply kept_elem; exists d;
      (split; [apply list_elem_of_here|]); unfold cell;
      [by rewrite Ht | by rewrite Hs | by rewrite Hsc].
  - apply truncate_all_str. eapply Forall_impl; [exact Hall|].
    intros d (t & s & m & e & _ & Hs & _). eauto.
Qed.

(** X6. The search notebook runs to its end, with four tables, whenever the
    endpoint and the index are set, no SDK call raises, and each of its four
    searches is answered with at least one result, every result having a
    title string, a chunk string and a numeric score. *)
Theorem search_notebook_succeeds dotenv_file (s : pystr) w endpoint index_name :
  (dotenv_file ∪ environ w) !! "AZURE_SEARCH_SERVICE_ENDPOINT" = Some endpoint →
  (dotenv_file ∪ environ w) !! "AZURE_SEARCH_INDEX" = Some index_name →
  (∀ call, sdk_raises sdk call = None) →
  (∀ client request,
     request ∈ [keyword_request s; vector_request s; hybrid_request s; semantic_request s] →
     search_response sdk client request ≠ []
     ∧ Forall displayable (search_response sdk client request)) →
  ∃ t1 t2 t3 t4 w', search_notebook sdk dotenv_file s w = (inr [t1; t2; t3; t4], w').
Proof.
  intros Hendpoint Hindex Hok Hanswers. unfold search_notebook.
  rewrite bind_run.
  destruct (load_environment sdk dotenv_file w) as [[e|[[e1 i1] cred]] w1] eqn:Hload.
  { pose proof (load_environment_run sdk dotenv_file w) as Hrun.
    rewrite Hload, Hendpoint, Hindex in Hrun. cbv zeta in Hrun.
    rewrite Hok in Hrun. done. }
  rewrite bind_run. unfold new_search_client at 1, sdk_call at 1. m_simpl.
  rewrite Hok. simpl.
  set (client := {| endpoint := Some e1; index_name := Some i1; credential := cred |}).
  assert (∀ request w0,
            request ∈ [keyword_request s; vector_request s; hybrid_request s;
                       semantic_request s] →
            ∃ sty w2, search_cell sdk client request w0 = (inr sty, w2)) as Hcell.
  { intros request w0 Hin. destruct (Hanswers client request Hin) as [Hne Hall].
    destruct (displayable_table _ Hne Hall) as [sty Hsty].
    pose proof (search_cell_outcome client request w0) as Hout.
    rewrite Hok, Hsty in Hout.
    destruct (search_cell sdk client request w0) as [r w2]. simpl in Hout. subst r.
    eauto. }
  match goal with |- context [search_cell sdk client (keyword_request s) ?w0] =>
    destruct (Hcell (keyword_request s) w0) as (t1 & w2 & ->); [set_solver|] end.
  match goal with |- context [search_cell sdk client (vector_request s) ?w0] =>
    destruct (Hcell (vector_request s) w0) as (t2 & w3 & ->); [set_solver|] end.
  match goal with |- context [search_cell sdk client (hybrid_request s) ?w0] =>
    destruct (Hcell (hybrid_request s) w0) as (t3 & w4 & ->); [set_solver|] end.
  match goal with |- context [search_cell sdk client (semantic_request s) ?w0] =>
    destruct (Hcell (semantic_request s) w0) as (t4 & w5 & ->); [set_solver|] end.
  eauto 6.
Qed.
End SearchNotebook.

(** X5 on the sample index. *)
Lemma search_notebook_requests_witness :
  ∃ tables w',
    search_notebook sample_sdk sample_search_env searchText (initial_world ∅)
    = (inr tables, w')
    ∧ search_requests (sdk_log w')
      = [keyword_request searchText; vector_request searchText;
         hybrid_request searchText; semantic_request searchText]
    ∧ length tables = 4.
Proof.
  destruct (search_notebook sample_sdk sample_search_env searchText (initial_world ∅))
    as [[e|tables] w'] eqn:Hrun.
  - vm_compute in Hrun. discriminate.
  - exists tables, w'. split; [done|].
    destruct (search_notebook_requests sample_sdk sample_search_env searchText
                (initial_world ∅) tables w' Hrun)
      as (endpoint & index_name & _ & _ & Hlog & Htables).
    split; [by rewrite Hlog|]. by apply Forall2_length in Htables.
Defined.

(** X6 on the sample index. *)
Lemma search_notebook_succeeds_witness :
  ∃ t1 t2 t3 t4 w',
    search_notebook sample_sdk sample_search_env searchText (initial_world ∅)
    = (inr [t1; t2; t3; t4], w').
Proof.
  apply (search_notebook_succeeds sample_sdk sample_search_env searchText
           (initial_world ∅)
           (lit "https://aisearch-fastai-rag.search.windows.net") (lit "sopravector2")).
  - vm_compute. reflexivity.
  - vm_compute. reflexivity.
  - intros call. reflexivity.
  - intros client request Hin.
    repeat (apply elem_of_cons in Hin as [->|Hin]);
      [..|by apply elem_of_nil in Hin];
      (split; [vm_compute; discriminate|]);
      vm_compute; repeat econstructor.
Defined.

Section RagCells.
Context (sdk : SDK).
Implicit Types (w : World) (client : SearchClient) (openai_client : AzureOpenAI).

Lemma print_result_run result w :
  match result_lines result with
  | Some lines =>
      (print_result result w).1 = inr tt
      ∧ stdout (print_result result w).2 = stdout w ++ lines
  | None =>
      ∃ k, (print_result result w).1 = inl (KeyError [k])
        ∧ k ∈ ["chunk_id"; "title"; "chunk"]
  end.
Proof.
  unfold result_lines, print_result, print, dict_getitem. m_simpl.
  destruct (dict_get "chunk_id" result); simpl; [|exists "chunk_id"; set_solver].
  destruct (dict_get "title" result); simpl; [|exists "title"; set_solver].
  destruct (dict_get "chunk" result); simpl; [|exists "chunk"; set_solver].
  split; [done|]. by rewrite <- !app_assoc.
Qed.

Lemma printing_loop_items ref items w :
  match mapM result_lines items with
  | Some lines =>
      (for_items ref items (λ _ result, print_result result) tt w).1 = inr tt
      ∧ stdout (for_items ref items (λ _ result, print_result result) tt w).2
        = stdout w ++ concat lines
  | None =>
      ∃ k, (for_items ref items (λ _ result, print_result result) tt w).1
           = inl (KeyError [k])
        ∧ k ∈ ["chunk_id"; "title"; "chunk"]
  end.
Proof.
  revert w. induction items as [|result rest IH]; intros w.
  - simpl. split; [done|]. by rewrite app_nil_r.
  - rewrite for_items_cons.
    pose proof (print_result_run result (set_pending ref rest w).2) as Hprint.
    cbn [mapM]. destruct (result_lines result) as [lines|]; simpl.
    + destruct Hprint as [Hok Hout].
      destruct (print_result result _) as [[e|[]] w1]; simpl in *; [done|].
      specialize (IH w1). destruct (mapM result_lines rest) as [more|]; simpl.
      * destruct IH as [-> ->]. split; [done|]. by rewrite Hout, app_assoc.
      * done.
    + destruct Hprint as (k & Hk & Hin).
      destruct (print_result result _) as [[e|[]] w1]; simpl in *; [|done].
      injection Hk as ->. eauto.
Qed.

(** The whole of step 5. *)
Lemma retrieve_documents_outcome client (question : pystr) w :
  match sdk_raises sdk (SearchPost client (rag_request question)) with
  | Some e => (retrieve_documents sdk client question w).1 = inl e
  | None =>
      match mapM result_lines (search_response sdk client (rag_request question)) with
      | Some lines =>
          (∃ ref, (retrieve_documents sdk client question w).1 = inr ref)
          ∧ stdout (retrieve_documents sdk client question w).2
            = stdout w ++ concat lines
      | None =>
          ∃ k, (retrieve_documents sdk client question w).1 = inl (KeyError [k])
            ∧ k ∈ ["chunk_id"; "title"; "chunk"]
      end
  end.
Proof.
  unfold retrieve_documents. rewrite bind_run, search_run.
  set (r := fresh (dom (heap w))). set (w1 := set_heap _ w).
  assert (heap w1 !! r = Some {| paged_client := client;
                                 paged_request := rag_request question;
                                 _page_iterator := None |}) as Hit
    by apply lookup_insert_eq.
  rewrite bind_run, for_in_run.
  rewrite (pending_unstarted sdk r w1 _ Hit eq_refl). simpl.
  destruct (sdk_raises sdk _) as [e|]; [done|].
  set (rows := search_response sdk client (rag_request question)).
  set (w2 := set_heap _ _).
  pose proof (printing_loop_items r rows w2) as Hloop.
  destruct (mapM result_lines rows) as [lines|];
    destruct (for_items r rows _ tt w2) as [[e|[]] w3]; simpl in *.
  - by destruct Hloop.
  - destruct Hloop as [_ Hout]. split; [by exists r | exact Hout].
  - destruct Hloop as (k & Hk & Hin). injection Hk as ->. by exists k.
  - by destruct Hloop as (k & ? & _).
Qed.

(** X7. When the search call does not raise, the printing loop of step 5
    writes, for each result in the order of the answer, the lines
    ["Chunk ID:" id], ["Title:" title], ["Text:" chunk] and an empty line,
    provided every result has these three fields; if a result lacks one of
    them the cell raises [KeyError] for one of the three keys. *)
Theorem printing_loop_output client (question : pystr) w :
  sdk_raises sdk (SearchPost client (rag_request question)) = None →
  (∀ lines,
     mapM result_lines (search_response sdk client (rag_request question)) = Some lines →
     ∃ ref, (retrieve_documents sdk client question w).1 = inr ref
       ∧ stdout (retrieve_documents sdk client question w).2 = stdout w ++ concat lines)
  ∧ (mapM result_lines (search_response sdk client (rag_request question)) = None →
     ∃ k, (retrieve_documents sdk client question w).1 = inl (KeyError [k])
       ∧ k ∈ ["chunk_id"; "title"; "chunk"]).
Proof.
  intros Hok. pose proof (retrieve_documents_outcome client question w) as Hout.
  rewrite Hok in Hout. split.
  - intros lines Hlines. rewrite Hlines in Hout.
    destruct Hout as [[ref Href] Hstdout]. eauto.
  - intros Hnone. by rewrite Hnone in Hout.
Qed.

Lemma context_loop_items ref items (context : pystr) w :
  (∀ chunks : list pystr,
     Forall2 (λ d c, dict_get "chunk" d = Some (PyStr c)) items chunks →
     (for_items ref items
        (λ context result,
           chunk ← lift (dict_getitem "chunk" result);
           piece ← lift (add_str chunk [newline; newline]);
           mret (context ++ piece)) context w).1
     = inr (context ++ (chunks ≫= λ c, c ++ [newline; newline])))
  ∧ (Exists (λ d, ∀ c, dict_get "chunk" d ≠ Some (PyStr c)) items →
     ∃ e, (for_items ref items
             (λ context result,
                chunk ← lift (dict_getitem "chunk" result);
                piece ← lift (add_str chunk [newline; newline]);
                mret (context ++ piece)) context w).1 = inl e
       ∧ (e = KeyError ["chunk"] ∨ e = TypeError)).
Proof.
  revert context w. induction items as [|result rest IH]; intros context w.
  - split.
    + intros chunks ->%Forall2_nil_inv_l. simpl. by rewrite app_nil_r.
    + intros Hex. by apply Exists_nil in Hex.
  - rewrite for_items_cons, context_body_run.
    destruct (dict_get "chunk" result) as [[|c| | |]|] eqn:Hc;
      try (split;
           [ intros chunks (c' & ? & Hc' & _ & _)%Forall2_cons_inv_l; congruence
           | intros _; eauto ]).
    specialize (IH (context ++ c ++ [newline; newline])
                  (set_pending ref rest w).2) as [IHok IHbad].
    split.
    + intros chunks (c' & chunks' & Hc' & Hall & ->)%Forall2_cons_inv_l.
      assert (c' = c) as -> by congruence.
      rewrite (IHok chunks' Hall). simpl. by rewrite <- !app_assoc.
    + intros [Hbad|Hex]%Exists_cons; [by destruct (Hbad c)|]. by apply IHbad.
Qed.

(** X8. The context loop of step 6, run on search results that have not
    been iterated yet and whose request does not raise: if every result has
    a chunk string, [context] is these chunks in the order of the answer,
    each followed by two newlines; if some result has no chunk or a chunk
    that is not a string, the loop raises [KeyError] for ["chunk"] or
    [TypeError]. *)
Theorem context_loop_on_fresh_results ref w it :
  heap w !! ref = Some it → _page_iterator it = None →
  sdk_raises sdk (SearchPost (paged_client it) (paged_request it)) = None →
  (∀ chunks : list pystr,
     Forall2 (λ d c, dict_get "chunk" d = Some (PyStr c))
       (search_response sdk (paged_client it) (paged_request it)) chunks →
     (collect_context sdk ref w).1 = inr (chunks ≫= λ c, c ++ [newline; newline]))
  ∧ (Exists (λ d, ∀ c, dict_get "chunk" d ≠ Some (PyStr c))
       (search_response sdk (paged_client it) (paged_request it)) →
     ∃ e, (collect_context sdk ref w).1 = inl e
       ∧ (e = KeyError ["chunk"] ∨ e = TypeError)).
Proof.
  intros Hit Hnone Hok. unfold collect_context. rewrite for_in_run.
  rewrite (pending_unstarted sdk ref w it Hit Hnone). simpl. rewrite Hok.
  match goal with
  | |- context [for_items ref ?items _ [] ?w0] =>
      destruct (context_loop_items ref items [] w0) as [Hgood Hbad]
  end.
  split; [exact Hgood | exact Hbad].
Qed.

(** X9. The context can be read back from the system message: two contexts
    with the same [SYSTEM_MESSAGE] are the same, and the message is longer
    than its context by the fixed text around it. *)
Theorem system_message_injective (context1 context2 : pystr) :
  (system_message context1 = system_message context2 → context1 = context2)
  ∧ length (system_message context1)
    = length (system_message []) + length context1.
Proof.
  split.
  - unfold system_message. intros Heq.
    repeat (apply app_inv_head in Heq). by apply app_inv_tail in Heq.
  - unfold system_message. rewrite !length_app. simpl. lia.
Qed.
End RagCells.

(** X7 on the sample index. *)
Lemma printing_loop_output_witness :
  ∃ lines ref,
    mapM result_lines
      (search_response sample_sdk sample_client (rag_request user_question)) = Some lines
    ∧ (retrieve_documents sample_sdk sample_client user_question (initial_world ∅)).1
      = inr ref
    ∧ stdout (retrieve_documents sample_sdk sample_client user_question
                (initial_world ∅)).2 = concat lines
    ∧ length lines = 3.
Proof.
  destruct (mapM result_lines
              (search_response sample_sdk sample_client (rag_request user_question)))
    as [lines|] eqn:Hlines.
  - destruct (printing_loop_output sample_sdk sample_client user_question
                (initial_world ∅) eq_refl) as [Hgood _].
    destruct (Hgood lines Hlines) as (ref & Href & Hout).
    exists lines, ref. split_and!; [done|done|exact Hout|].
    vm_compute in Hlines. injection Hlines as <-. reflexivity.
  - vm_compute in Hlines. discriminate.
Defined.

(** X8 on the sample index: the context loop right after the search. *)
Lemma context_loop_on_fresh_results_witness :
  (collect_context sample_sdk 0 (searched (rag_request user_question))).1
  = inr (sample_chunks ≫= λ c, c ++ [newline; newline]).
Proof.
  eapply (context_loop_on_fresh_results sample_sdk 0
            (searched (rag_request user_question))).
  - vm_compute. reflexivity.
  - reflexivity.
  - reflexivity.
  - simpl. unfold sample_search. simpl. repeat constructor.
Defined.

Section Failures.
Context (sdk : SDK) (P : SdkCall → Prop).

Lemma fails_never {A} (m : M A) :
  (∀ w, ∃ x, (m w).1 = inr x) → fails_by_sdk sdk P m.
Proof. intros Hm w e w' Hrun. destruct (Hm w) as [x Hx]. by rewrite Hrun in Hx. Qed.

Lemma fails_by_sdk_bind {A B} (m : M A) (f : A → M B) :
  fails_by_sdk sdk P m → (∀ x, fails_by_sdk sdk P (f x)) →
  fails_by_sdk sdk P (m ≫= f).
Proof.
  intros Hm Hf w e w'. rewrite bind_run.
  destruct (m w) as [[e1|x] w1] eqn:Hrun.
  - intros [= <- <-]. by eapply Hm.
  - apply Hf.
Qed.

Lemma fails_by_sdk_call {A} call (response : A) :
  P call → fails_by_sdk sdk P (sdk_call sdk call response).
Proof.
  intros Hcall w e w'. unfold sdk_call. m_simpl.
  destruct (sdk_raises sdk call) as [e1|] eqn:Hr; [|done].
  intros [= <- <-]. exists call. simpl. by rewrite last_snoc.
Qed.
End Failures.

(** Goes through a cell whose statements cannot fail except in SDK calls. *)
Ltac fail_cell :=
  repeat first
    [ apply fails_by_sdk_call
    | apply fails_never; intros ?; eexists; reflexivity
    | apply fails_by_sdk_bind; [|intros ?]
    | match goal with
      | |- fails_by_sdk _ _ (if ?b then _ else _) => destruct b
      end ].

Section RagNotebook.
Context (sdk : SDK).
Implicit Types (w : World) (dotenv_file : gmap string pystr).

Lemma setup_api_clients_fails dotenv_file :
  fails_by_sdk sdk constructor_call (setup_api_clients sdk dotenv_file).
Proof.
  unfold setup_api_clients, load_dotenv, os_getenv, new_search_client.
  fail_cell; done.
Qed.

(** X10. Step 3 of the RAG notebook raises nothing of its own: if it fails,
    the exception is the one its last SDK call, a constructor of a
    credential or a client, has raised; so in every environment, with all
    variables unset too, it builds both clients when no constructor
    raises. *)
Theorem setup_api_clients_failures dotenv_file w :
  (∀ e w', setup_api_clients sdk dotenv_file w = (inl e, w') →
     ∃ call, last (sdk_log w') = Some call
       ∧ sdk_raises sdk call = Some e ∧ constructor_call call)
  ∧ ((∀ call, constructor_call call → sdk_raises sdk call = None) →
     ∃ openai_client search_client w',
       setup_api_clients sdk dotenv_file w = (inr (openai_client, search_client), w')).
Proof.
  split.
  - intros e w'. apply setup_api_clients_fails.
  - intros Hok.
    destruct (setup_api_clients sdk dotenv_file w) as [[e|[oc sc]] w'] eqn:Hrun; [|eauto].
    apply setup_api_clients_fails in Hrun as (call & _ & Hraise & Hcall).
    rewrite (Hok call Hcall) in Hraise. done.
Qed.

Lemma setup_api_clients_frame dotenv_file w :
  stdout (setup_api_clients sdk dotenv_file w).2 = stdout w
  ∧ environ (setup_api_clients sdk dotenv_file w).2 = dotenv_file ∪ environ w.
Proof.
  unfold setup_api_clients, load_dotenv, os_getenv, new_search_client, sdk_call.
  m_simpl.
  destruct (truthy (_ !! "AZURE_OPENAI_API_KEY"));
    destruct (truthy (_ !! "AZURE_SEARCH_ADMIN_KEY"));
    repeat (case_match; simpl; try done); by simplify_eq/=.
Qed.

Lemma setup_api_clients_log dotenv_file :
  logs_only constructor_call (setup_api_clients sdk dotenv_file).
Proof.
  unfold setup_api_clients, load_dotenv, os_getenv, new_search_client.
  log_cell; done.
Qed.

Lemma network_calls_app log1 log2 :
  network_calls (log1 ++ log2) = network_calls log1 ++ network_calls log2.
Proof. unfold network_calls. apply bind_app. Qed.

Lemma network_calls_constructors calls :
  Forall constructor_call calls → network_calls calls = [].
Proof.
  induction 1 as [|call calls Hcall _ IH]; [done|].
  change (call :: calls) with ([call] ++ calls).
  rewrite network_calls_app, IH. by destruct call.
Qed.

Lemma prepare_question_inr openai_client (question : pystr) w vector w' :
  prepare_question sdk openai_client question w = (inr vector, w') →
  head (embeddings_response sdk openai_client
          (environ w !! "AZURE_OPENAI_EMBEDDING_DEPLOYED_MODEL_NAME") question)
  = Some vector
  ∧ sdk_log w'
    = sdk_log w ++ [EmbeddingsCreate openai_client
                      (environ w !! "AZURE_OPENAI_EMBEDDING_DEPLOYED_MODEL_NAME") question]
  ∧ environ w' = environ w
  ∧ stdout w'
    = stdout w ++ [ [PyStr (lit "Text embedding")]; [PyList vector];
                    [PyInt (Z.of_nat (length vector))] ].
Proof.
  unfold prepare_question. rewrite bind_run.
  pose proof (get_embedding_run sdk openai_client question w) as Hrun. simpl in Hrun.
  rewrite Hrun. clear Hrun.
  destruct (sdk_raises sdk _); [done|].
  destruct (embeddings_response sdk _ _ _) as [|first rest]; [done|].
  unfold print. m_simpl. intros [= <- <-]. simpl.
  split_and!; [done..|]. by rewrite <- !app_assoc.
Qed.

Lemma generate_response_inr openai_client ref (question : pystr) w answer w' :
  holds w ref [] →
  generate_response sdk openai_client ref question w = (inr answer, w') →
  head (chat_response sdk openai_client
          (chat_request (environ w !! "AZURE_OPENAI_CHAT_COMPLETION_DEPLOYED_MODEL_NAME")
             [] question)) = Some answer
  ∧ sdk_log w'
    = sdk_log w
      ++ [ChatCompletionsCreate openai_client
            (chat_request (environ w !! "AZURE_OPENAI_CHAT_COMPLETION_DEPLOYED_MODEL_NAME")
               [] question)]
  ∧ stdout w' = stdout w ++ [[from_option PyStr PyNone answer]].
Proof.
  intros Hholds. unfold generate_response.
  rewrite bind_run, (collect_context_exhausted sdk ref w Hholds).
  unfold os_getenv, sdk_call, print. m_simpl.
  destruct (sdk_raises sdk _); [done|].
  destruct (chat_response sdk _ _) as [|first rest]; [done|].
  by intros [= <- <-].
Qed.

(** X11. A run of the RAG notebook that reaches its end has made exactly
    three network calls, in this order: one embeddings request for the
    question, one search request [rag_request], one chat request with the
    question and an empty context; and has printed the embedding header (the
    text, the vector, its length), then four lines for each retrieved
    result, then the answer, which is the first choice of the chat
    response. *)
Theorem rag_notebook_run dotenv_file (question : pystr) w answer w' :
  rag_notebook sdk dotenv_file question w = (inr answer, w') →
  ∃ openai_client search_client vector lines,
    let env := dotenv_file ∪ environ w in
    let embedding_model := env !! "AZURE_OPENAI_EMBEDDING_DEPLOYED_MODEL_NAME" in
    let request :=
      chat_request (env !! "AZURE_OPENAI_CHAT_COMPLETION_DEPLOYED_MODEL_NAME") [] question in
    network_calls (sdk_log w')
    = network_calls (sdk_log w)
      ++ [EmbeddingsCreate openai_client embedding_model question;
          SearchPost search_client (rag_request question);
          ChatCompletionsCreate openai_client request]
    ∧ head (embeddings_response sdk openai_client embedding_model question) = Some vector
    ∧ mapM result_lines (search_response sdk search_client (rag_request question))
      = Some lines
    ∧ head (chat_response sdk openai_client request) = Some answer
    ∧ stdout w'
      = stdout w
        ++ [ [PyStr (lit "Text embedding")]; [PyList vector];
             [PyInt (Z.of_nat (length vector))] ]
        ++ concat lines
        ++ [[from_option PyStr PyNone answer]].
Proof.
  unfold rag_notebook.
  intros ([openai_client search_client] & w1 & Hsetup & Hrun)%bind_inr_inv.
  apply bind_inr_inv in Hrun as (vector & w2 & Hprepare & Hrun).
  apply bind_inr_inv in Hrun as (ref & w3 & Hretrieve & Hgen).
  destruct (setup_api_clients_frame dotenv_file w) as [Hout1 Henv1].
  destruct (setup_api_clients_log dotenv_file w) as (calls & Hlog1 & Hcalls).
  rewrite Hsetup in Hout1, Henv1, Hlog1. simpl in Hout1, Henv1, Hlog1.
  apply prepare_question_inr in Hprepare as (Hvector & Hlog2 & Henv2 & Hout2).
  pose proof (retrieve_documents_outcome sdk search_client question w2) as Hstep5.
  pose proof (retrieve_documents_inr sdk _ _ _ _ _ Hretrieve)
    as (Hit & Hlog3 & Henv3 & _).
  rewrite Hretrieve in Hstep5. simpl in Hstep5.
  destruct (sdk_raises sdk (SearchPost search_client (rag_request question)));
    [done|].
  destruct (mapM result_lines _) as [lines|] eqn:Hlines;
    [|by destruct Hstep5 as (k & ? & _)].
  destruct Hstep5 as [_ Hout3].
  apply generate_response_inr in Hgen as (Hanswer & Hlog4 & Hout4);
    [|by eexists; split; [exact Hit|]].
  exists openai_client, search_client, vector, lines. cbv zeta.
  rewrite Henv3, Henv2, Henv1 in Hanswer, Hlog4. rewrite Henv1 in Hvector, Hlog2.
  split_and!; [|done|done|done|].
  - rewrite Hlog4, Hlog3, Hlog2, Hlog1, !network_calls_app.
    rewrite (network_calls_constructors calls Hcalls). by rewrite app_nil_r, <- !app_assoc.
  - rewrite Hout4, Hout3, Hout2, Hout1. by rewrite <- !app_assoc.
Qed.
End RagNotebook.

(** X10 in an empty environment with the sample service, none of whose
    calls raises. *)
Lemma setup_api_clients_failures_witness :
  ∃ openai_client search_client w',
    setup_api_clients sample_sdk ∅ (initial_world ∅)
    = (inr (openai_client, search_client), w').
Proof.
  destruct (setup_api_clients_failures sample_sdk ∅ (initial_world ∅)) as [_ Hok].
  apply Hok. intros call _. reflexivity.
Defined.

(** X11 on the sample index. *)
Lemma rag_notebook_run_witness :
  ∃ answer w',
    rag_notebook sample_sdk ∅ user_question (initial_world ∅) = (inr answer, w')
    ∧ length (network_calls (sdk_log w')) = 3
    ∧ length (stdout w') = 3 + 4 * 3 + 1.
Proof.
  destruct (rag_notebook sample_sdk ∅ user_question (initial_world ∅))
    as [[e|answer] w'] eqn:Hrun.
  - vm_compute in Hrun. discriminate.
  - exists answer, w'. split; [done|].
    destruct (rag_notebook_run sample_sdk ∅ user_question (initial_world ∅)
                answer w' Hrun)
      as (openai_client & search_client & vector & lines
          & Hcalls & Hvector & Hlines & _ & Hout).
    split; [by rewrite Hcalls|].
    rewrite Hout. vm_compute in Hlines. injection Hlines as <-.
    rewrite !length_app. reflexivity.
Defined.

Section Edges.
Context (sdk : SDK).
Implicit Types (w : World) (client : SearchClient) (openai_client : AzureOpenAI).

(** X12. A search cell works on an iterator object of its own: the results
    objects made by earlier searches are left exactly as they were, and what
    the cell returns does not depend on them; it is the exception of the
    search call, or else the display of the answer. *)
Theorem search_cell_leaves_other_results client request w :
  (∀ ref it, heap w !! ref = Some it →
     heap (search_cell sdk client request w).2 !! ref = Some it)
  ∧ (search_cell sdk client request w).1
    = match sdk_raises sdk (SearchPost client request) with
      | Some e => inl e
      | None => display_table (search_response sdk client request)
      end.
Proof.
  split; [|apply search_cell_outcome].
  intros ref it Hit. unfold search_cell. rewrite bind_run, search_run.
  set (r := fresh (dom (heap w))). set (w1 := set_heap _ w).
  assert (r ≠ ref) as Hne.
  { intros Heq. apply (is_fresh (dom (heap w))). fold r. rewrite Heq.
    apply elem_of_dom. eauto. }
  assert (heap w1 !! r = Some {| paged_client := client; paged_request := request;
                                 _page_iterator := None |}) as Hr
    by apply lookup_insert_eq.
  assert (heap w1 !! ref = Some it) as Hit1
    by (unfold w1; simpl; by rewrite lookup_insert_ne).
  rewrite display_results_run. unfold py_list. rewrite for_in_run.
  rewrite (pending_unstarted sdk r w1 _ Hr eq_refl). simpl.
  destruct (sdk_raises sdk _) as [e|]; [done|].
  match goal with
  | |- context [for_items ?r0 ?i ?b ?s ?w0] =>
      pose proof (for_items_frame (λ w, heap w !! ref) r0 i b s w0) as Hframe;
      destruct (for_items r0 i b s w0) as [[e|rows] w2]
  end; simpl in *.
  - rewrite Hframe; [by rewrite lookup_alter_ne | |done].
    intros rest w0. simpl. by rewrite lookup_alter_ne.
  - rewrite Hframe; [by rewrite lookup_alter_ne | |done].
    intros rest w0. simpl. by rewrite lookup_alter_ne.
Qed.

(** X13. Step 4 indexes [data[0]]: when the embeddings call does not raise
    but answers with an empty [data], [get_embedding] raises [IndexError];
    and whenever [get_embedding] fails, step 4 fails in the same way and
    prints nothing. *)
Theorem prepare_question_failure openai_client (question : pystr) w :
  (sdk_raises sdk
     (EmbeddingsCreate openai_client
        (environ w !! "AZURE_OPENAI_EMBEDDING_DEPLOYED_MODEL_NAME") question) = None →
   embeddings_response sdk openai_client
     (environ w !! "AZURE_OPENAI_EMBEDDING_DEPLOYED_MODEL_NAME") question = [] →
   (get_embedding sdk openai_client question w).1 = inl IndexError)
  ∧ (∀ e, (get_embedding sdk openai_client question w).1 = inl e →
       (prepare_question sdk openai_client question w).1 = inl e
       ∧ stdout (prepare_question sdk openai_client question w).2 = stdout w).
Proof.
  pose proof (get_embedding_run sdk openai_client question w) as Hrun.
  simpl in Hrun. split.
  - intros Hok Hempty. by rewrite Hrun, Hok, Hempty.
  - intros e He. unfold prepare_question. rewrite bind_run.
    rewrite Hrun in He |- *. simpl in He. rewrite He. done.
Qed.

(** X14. Step 6 indexes [choices[0]]: when the context loop has run and the
    chat call does not raise but answers without choices, the cell raises
    [IndexError] after the request has been sent, and prints nothing. *)
Theorem generate_response_no_choices openai_client ref (question : pystr) w ctx w1 :
  collect_context sdk ref w = (inr ctx, w1) →
  sdk_raises sdk
    (ChatCompletionsCreate openai_client
       (chat_request (environ w1 !! "AZURE_OPENAI_CHAT_COMPLETION_DEPLOYED_MODEL_NAME")
          ctx question)) = None →
  chat_response sdk openai_client
    (chat_request (environ w1 !! "AZURE_OPENAI_CHAT_COMPLETION_DEPLOYED_MODEL_NAME")
       ctx question) = [] →
  (generate_response sdk openai_client ref question w).1 = inl IndexError
  ∧ stdout (generate_response sdk openai_client ref question w).2 = stdout w1
  ∧ last (sdk_log (generate_response sdk openai_client ref question w).2)
    = Some (ChatCompletionsCreate openai_client
              (chat_request
                 (environ w1 !! "AZURE_OPENAI_CHAT_COMPLETION_DEPLOYED_MODEL_NAME")
                 ctx question)).
Proof.
  intros Hctx Hok Hempty. unfold generate_response. rewrite bind_run, Hctx.
  unfold os_getenv, sdk_call, print. m_simpl. rewrite Hok, Hempty. simpl.
  split_and!; [done|done|apply last_snoc].
Qed.
End Edges.

(** X14 on a service whose chat answers have no choices, with the context
    loop run on fresh results. *)
Lemma generate_response_no_choices_witness :
  (generate_response failing_chat_sdk sample_openai_client 0 user_question
     (searched (rag_request user_question))).1 = inl IndexError.
Proof.
  eapply (generate_response_no_choices failing_chat_sdk sample_openai_client 0
            user_question (searched (rag_request user_question))).
  - vm_compute. reflexivity.
  - reflexivity.
  - reflexivity.
Defined.
